(** * Block-mode acquisition scripts for PicoScope units

    A shallow embedding of the two scripts of the repository,
    [picoscope-2206B.py] (a 2206B unit driven through the ps2000a driver)
    and [ps6000Examples/ps6000BlockExample.py] (a 6000 series unit), and
    of the helpers they import.

    How Python values are rendered:
    - [int] is [Z]; a [ctypes] integer cell is a [Z] wrapped to its width;
    - the floats of the configuration stage and the voltages that
      [adc2mV] returns are IEEE binary64 numbers, the kernel's [float],
      with Python's exceptions for a division by zero and for the
      rounding of an infinity or of a NaN;
    - [math.log] is left to the platform: it is an argument of the runs;
    - the sample interval that the driver reports and the time axis are
      rendered by the rationals they denote (type [Q]), that is, up to
      the rounding of each operation;
    - the [status] dictionary is a [gmap string Z];
    - the driver is an environment: a [device] answers every call from
      the history of the calls issued so far;
    - an exception ends the run: runs live in a state and error monad
      whose state (the calls issued, the [status] dictionary) survives
      the exception;
    - the ready poll is the only loop; it is given fuel, and a run that
      exhausts it is still polling;
    - of plotting, only the refusal of two sequences of different
      lengths is kept; printing and the writing of the .csv files are
      left out: a run returns what it hands to them. *)

From Stdlib Require Import ZArith QArith Qround Floats Uint63 Lia Lqa.
From stdpp Require Import base list strings gmap.

Open Scope Z_scope.

(** ** Numbers *)

Module Num.

(** The value read back from a signed [ctypes] cell of [bits] bits. *)
Definition wrap (bits : Z) (z : Z) : Z :=
  let m := 2 ^ bits in
  let r := z mod m in
  if r <? 2 ^ (bits - 1) then r else r - m.

Definition c_int16 (z : Z) : Z := wrap 16 z.
Definition c_int32 (z : Z) : Z := wrap 32 z.

(** Python's [round(x)] with one argument: to the nearest integer, a tie
    to the even one. *)
Definition py_round (x : Q) : Z :=
  let n := Qfloor x in
  match Qcompare (x - inject_Z n) (1 # 2) with
  | Lt => n
  | Gt => n + 1
  | Eq => if Z.even n then n else n + 1
  end.

(** The binary64 number of an integer below [2 ^ 63] in absolute value
    (exact below [2 ^ 53], which covers every product of a 16-bit count
    and a range of the table). *)
Definition float_of_Z (z : Z) : float :=
  match z with
  | Z0 => PrimFloat.zero
  | Zpos _ => PrimFloat.of_uint63 (Uint63.of_Z z)
  | Zneg p => PrimFloat.opp (PrimFloat.of_uint63 (Uint63.of_Z (Zpos p)))
  end.

End Num.

(** ** Exceptions *)

(** [DeviceError] is what the spec calls the error of [assert_pico_ok];
    it carries the status code that the helper was handed.
    [ZeroDivisionError] is Python's, the spec's DivisionByZeroError. *)
Inductive exn : Type :=
| DeviceError (code : Z)
| ZeroDivisionError
| OverflowError
| IndexError
| KeyError
| ValueError.

(** A value or the exception raised in its place. *)
Global Instance exn_ret : MRet (sum exn) := fun A a => inr a.
Global Instance exn_bind : MBind (sum exn) := fun A B k r =>
  match r with
  | inl e => inl e
  | inr a => k a
  end.


(** ** Python's float and integer arithmetic *)

Module Py.

(** The number that the finite binary64 number of sign [s], mantissa [m]
    and exponent [e] denotes. *)
Definition value (s : bool) (m : positive) (e : Z) : Q :=
  let v := if 0 <=? e then inject_Z (Zpos m * 2 ^ e)
           else Zpos m # Z.to_pos (2 ^ (- e)) in
  if s then (- v)%Q else v.

(** [x / y] on floats: a zero divisor, of either sign, raises. *)
Definition truediv (x y : float) : exn + float :=
  if (y =? 0)%float then inl ZeroDivisionError else inr (x / y)%float.

(** [round(x)] of a float, an [int]: the nearest integer of the number
    that [x] denotes, a tie to the even one; an infinity and a NaN have
    no integer. *)
Definition round (x : float) : exn + Z :=
  match Prim2SF x with
  | S754_nan => inl ValueError
  | S754_infinity _ => inl OverflowError
  | S754_zero _ => inr 0
  | S754_finite s m e => inr (Num.py_round (value s m e))
  end.

(** The float of an [int], as in [x / n] for a float [x]: the nearest
    binary64 number, a tie to the even one; an [int] beyond the largest
    float raises. *)
Definition float_of_int (n : Z) : exn + float :=
  match binary_normalize prec emax n 0 false with
  | S754_infinity _ => inl OverflowError
  | x => inr (SF2Prim x)
  end.

Definition SF_of_int (n : Z) : spec_float :=
  match n with
  | Z0 => S754_zero false
  | Zpos p => S754_finite false p 0
  | Zneg p => S754_finite true p 0
  end.

(** [a / b] on two [int]: the quotient rounded once to the nearest
    binary64 number. *)
Definition int_truediv (a b : Z) : exn + float :=
  if b =? 0 then inl ZeroDivisionError
  else match SFdiv prec emax (SF_of_int a) (SF_of_int b) with
       | S754_infinity _ => inl OverflowError
       | x => inr (SF2Prim x)
       end.

(** The sign of a binary64 number. Not below zero: a zero of either
    sign, or a positive number. *)
Definition not_negative (x : spec_float) : Prop :=
  match x with
  | S754_zero _ | S754_nan => True
  | S754_infinity s | S754_finite s _ _ => s = false
  end.

Definition positive_or_nan (x : spec_float) : Prop :=
  match x with
  | S754_nan => True
  | S754_zero _ => False
  | S754_infinity s | S754_finite s _ _ => s = false
  end.

End Py.
(** ** picosdk.functions *)

Module Functions.

Definition PICO_OK : Z := 0.

(** Modelled from the spec: [assert_pico_ok] of [picosdk.functions], which
    is not among the sources. Any status other than success is a fatal
    [DeviceError]. The scripts hand it the status alone,
    [assert_pico_ok(status[key])], so the error carries the code and
    cannot name the operation. *)
Definition assert_pico_ok (status : Z) : exn + unit :=
  if status =? PICO_OK then inr tt else inl (DeviceError status).

(** Modelled from the spec: the table of full-scale ranges that [adc2mV]
    of [picosdk.functions] indexes with the driver's range number, in
    millivolts. Entry 7 is the 2 V range both scripts select
    ([PS2000A_2V = PS6000_2V = 7] in their comments). *)
Definition channelInputRanges : list Z :=
  [10; 20; 50; 100; 200; 500; 1000; 2000; 5000; 10000; 20000; 50000;
   100000; 200000].

(** Python's [l[i]]: a negative index counts from the end. *)
Definition py_index {A} (l : list A) (i : Z) : option A :=
  if 0 <=? i then l !! Z.to_nat i
  else if 0 <=? Z.of_nat (length l) + i then l !! Z.to_nat (Z.of_nat (length l) + i)
  else None.

(** The millivolt value of one count: the quotient of two integers, a
    binary64 number. *)
Definition convert (count vRange maxADC : Z) : float :=
  PrimFloat.div (Num.float_of_Z (count * vRange)) (Num.float_of_Z maxADC).

(** Modelled from the spec: [adc2mV] of [picosdk.functions], which is not
    among the sources:
    [voltageMv[i] = rawCounts[i] * fullScaleRangeMv / maxADCCount], and a
    zero [maxADCCount] fails with the division-by-zero error. *)
Definition adc2mV (bufferADC : list Z) (range : Z) (maxADC : Z)
  : exn + list float :=
  match py_index channelInputRanges range with
  | None => inl IndexError
  | Some vRange =>
      if maxADC =? 0 then inl ZeroDivisionError
      else inr ((fun x => convert x vRange maxADC) <$> bufferADC)
  end.

End Functions.

(** ** The driver as an environment *)

(** The driver functions the scripts call. Both drivers (ps2000a and
    ps6000) offer the same functions under their own prefix; a run talks
    to one of them. *)
Inductive api : Type :=
| OpenUnit | SetChannel | SetSimpleTrigger | GetTimebase2 | RunBlock
| IsReady | SetDataBuffers | GetValues | MaximumValue | Stop | CloseUnit.

(** A call with its integer arguments in the order of the source; the
    handle, pointers and [None] are left out. *)
Record call : Type := Call { fn : api; args : list Z }.

Global Instance api_eq_dec : EqDecision api.
Proof. solve_decision. Defined.
Global Instance call_eq_dec : EqDecision call.
Proof. solve_decision. Defined.

(** What the driver answers. Each field reads the history of the calls
    issued so far, newest first, the answered call at its head. Only the
    outputs that the scripts read are kept. *)
Record device : Type := Device {
  pico_status : list call -> Z;
  timeIntervalNanoseconds : list call -> Q;
  ready_flag : list call -> Z;
  noOfSamples : list call -> Z;
  samples : list call -> Z -> list Z;
  maximumValue : list call -> Z
}.

(** ** Runs *)

Record world : Type := World {
  issued : list call;
  status : gmap string Z
}.

Definition start : world := World [] ∅.

Inductive outcome (A : Type) : Type :=
| Returned (a : A)
| Raised (e : exn)
| StillPolling.
Arguments Returned {A} a.
Arguments Raised {A} e.
Arguments StillPolling {A}.

Definition M (A : Type) : Type := world -> outcome A * world.

Global Instance M_ret : MRet M := fun A a w => (Returned a, w).
Global Instance M_bind : MBind M := fun A B k m w =>
  match m w with
  | (Returned a, w') => k a w'
  | (Raised e, w') => (Raised e, w')
  | (StillPolling, w') => (StillPolling, w')
  end.

Definition raise {A} (e : exn) : M A := fun w => (Raised e, w).

Definition lift {A} (r : exn + A) : M A :=
  match r with inl e => raise e | inr a => mret a end.

(** [ps.<function>(chandle, ...)]: the call joins the history, which is
    returned for the outputs to be read from the device. *)
Definition invoke (f : api) (a : list Z) : M (list call) := fun w =>
  let h := Call f a :: issued w in (Returned h, World h (status w)).

(** [status[key] = code] *)
Definition set_status (key : string) (code : Z) : M unit := fun w =>
  (Returned tt, World (issued w) (<[key := code]> (status w))).

(** [status[key] = ps.<function>(chandle, ...)] *)
Definition driver (dev : device) (key : string) (f : api) (a : list Z)
  : M (list call) :=
  h ← invoke f a; _ ← set_status key (pico_status dev h); mret h.

(** [assert_pico_ok(status[key])]: the helper receives the value stored
    under [key], not the key. *)
Definition check (key : string) : M unit := fun w =>
  match status w !! key with
  | None => (Raised KeyError, w)
  | Some code => lift (Functions.assert_pico_ok code) w
  end.

(** The ready poll of both scripts:
    [while ready.value == check.value: status["isReady"] = IsReady(...)].
    [ready] and [check_] are the values of the two 16-bit cells; the body
    writes [ready] only. *)
Fixpoint poll (dev : device) (fuel : nat) (ready check_ : Z) : M Z := fun w =>
  if negb (ready =? check_) then (Returned ready, w)
  else match fuel with
       | O => (StillPolling, w)
       | S fuel' =>
           match driver dev "isReady" IsReady [] w with
           | (Returned h, w') =>
               poll dev fuel' (Num.c_int16 (ready_flag dev h)) check_ w'
           | (Raised e, w') => (Raised e, w')
           | (StillPolling, w') => (StillPolling, w')
           end
       end.

(** A zeroed [c_int16] array of [n] cells after the driver has written
    [data] into it. *)
Definition store_samples (n : nat) (data : list Z) : list Z :=
  take n ((Num.c_int16 <$> data) ++ replicate n 0).

(** [numpy.linspace(start, stop, num)]: [num] points from [start] to
    [stop], both included, [start + i * step] with
    [step = (stop - start) / (num - 1)]. *)
Definition linspace (start stop : Q) (num : Z) : exn + list Q :=
  if num <? 0 then inl ValueError
  else
    let step := ((stop - start) / inject_Z (num - 1))%Q in
    inr ((fun i => (start + inject_Z i * step)%Q) <$> seqZ 0 num).

(** ** matplotlib.pyplot *)

Module Plt.

(** [plt.plot(x, y)]. matplotlib is not among the sources; of the call
    only its refusal is kept: two sequences of different lengths raise
    [ValueError] (x and y must have same first dimension). What is drawn,
    and [plt.show], are left out. *)
Definition plot {A B} (x : list A) (y : list B) : exn + unit :=
  if (length x =? length y)%nat then inr tt else inl ValueError.

End Plt.

(** What a run hands to the files. *)
Record capture : Type := Capture {
  adc2mVChAMax : list float;
  adc2mVChBMax : list float;
  timeAxis : list Q
}.

(** ** picoscope-2206B.py *)

Module PicoScope2206B.

(** Lines 17 to 23: the timebase of the requested sampling frequency,
    from one of two formulas. [log x] is [math.log(x, 2)] of the platform,
    [None] its [ValueError] (math domain error). The constants [125e6],
    [500e6] and [62.5e6] are integers, hence binary64 numbers. *)
Definition timebase (log : float -> option float) (SAMPLING_FREQUENCY : float)
  : exn + Z :=
  if (125000000 <=? SAMPLING_FREQUENCY)%float then
    q ← Py.truediv 500000000 SAMPLING_FREQUENCY;
    l ← match log q with Some l => inr l | None => inl ValueError end;
    Py.round l
  else
    q ← Py.truediv 62500000 SAMPLING_FREQUENCY;
    Py.round (q + 2)%float.

(** The sampling frequency the script prints: the one the unit achieves
    with this timebase. [2 ** timebase] is an [int] when [timebase] is
    not negative, and the float [2.0 ** timebase] (a power of two, or
    zero below the smallest float) when it is. *)
Definition printedFrequency (SAMPLING_FREQUENCY : float) (timebase : Z)
  : exn + float :=
  if (125000000 <=? SAMPLING_FREQUENCY)%float then
    x ← (if 0 <=? timebase then Py.int_truediv (2 ^ timebase) 5
         else Py.truediv (Z.ldexp 1 timebase) 5);
    y ← Py.truediv 1 x;
    mret (y * 100000000)%float
  else
    d ← Py.float_of_int (timebase - 2);
    Py.truediv 62500000 d.

(** Lines 26 to 28. [ACQUISITION_TIME] is the float of the constant. *)
Definition samplingInterval (SAMPLING_FREQUENCY : float) : exn + float :=
  Py.truediv 1 SAMPLING_FREQUENCY.

Definition totalSamples (SAMPLING_FREQUENCY ACQUISITION_TIME : float)
  : exn + Z :=
  samplingInterval ← samplingInterval SAMPLING_FREQUENCY;
  q ← Py.truediv ACQUISITION_TIME samplingInterval;
  Py.round q.

(** Lines 79 and 80. [totalSamples] is the integer of a float, so that
    its half is a float without rounding. *)
Definition preTriggerSamples (totalSamples : Z) : Z :=
  Num.py_round (inject_Z totalSamples / 2).

Definition postTriggerSamples (totalSamples : Z) : Z :=
  totalSamples - preTriggerSamples totalSamples.

(** The capacity the script's comments give for the unit, 32 MS, read
    as 32 * 2 ^ 20 samples. *)
Definition bufferMemory : Z := 32 * 1024 * 1024.

Record config : Type := Config {
  cfg_timebase : Z;
  cfg_frequency : float;
  cfg_totalSamples : Z
}.

(** Lines 16 to 29, before the unit is opened. *)
Definition configure (log : float -> option float)
  (SAMPLING_FREQUENCY ACQUISITION_TIME : float) : exn + config :=
  timebase ← timebase log SAMPLING_FREQUENCY;
  frequency ← printedFrequency SAMPLING_FREQUENCY timebase;
  totalSamples ← totalSamples SAMPLING_FREQUENCY ACQUISITION_TIME;
  mret (Config timebase frequency totalSamples).

(** Line 202. *)
Definition makeTimeAxis (cTotalSamples : Z) (timeIntervalns : Q) : exn + list Q :=
  linspace 0 (inject_Z cTotalSamples * (timeIntervalns - 1)) cTotalSamples.

(** Lines 33 to 221, for the values of lines 16 to 29. *)
Definition acquire (dev : device) (fuel : nat) (c : config) : M capture :=
  let timebase := cfg_timebase c in
  let totalSamples := cfg_totalSamples c in
  _ ← driver dev "openunit" OpenUnit [];
  _ ← check "openunit";
  let chARange := 7 in
  _ ← driver dev "setChA" SetChannel [0; 1; 1; chARange; 0];
  _ ← check "setChA";
  let chBRange := 7 in
  _ ← driver dev "setChB" SetChannel [1; 1; 1; chBRange; 0];
  _ ← check "setChB";
  _ ← driver dev "trigger" SetSimpleTrigger [1; 0; 1024; 2; 0; 1000];
  _ ← check "trigger";
  let preTriggerSamples := preTriggerSamples totalSamples in
  let postTriggerSamples := totalSamples - preTriggerSamples in
  let oversample := 0 in
  h ← driver dev "getTimebase2" GetTimebase2 [timebase; totalSamples; oversample; 0];
  let timeIntervalns := timeIntervalNanoseconds dev h in
  _ ← check "getTimebase2";
  _ ← driver dev "runBlock" RunBlock
        [preTriggerSamples; postTriggerSamples; timebase; oversample; 0];
  _ ← check "runBlock";
  _ ← poll dev fuel 0 0;
  _ ← (if totalSamples <? 0 then raise ValueError else mret tt);
  _ ← driver dev "setDataBuffersA" SetDataBuffers [0; totalSamples; 0; 0];
  _ ← check "setDataBuffersA";
  _ ← driver dev "setDataBuffersB" SetDataBuffers [1; totalSamples; 0; 0];
  _ ← check "setDataBuffersB";
  let cTotalSamples := Num.c_int32 totalSamples in
  h ← driver dev "getValues" GetValues [0; cTotalSamples; 0; 0; 0];
  let bufferAMax := store_samples (Z.to_nat totalSamples) (samples dev h 0) in
  let bufferBMax := store_samples (Z.to_nat totalSamples) (samples dev h 1) in
  let cTotalSamples := Num.c_int32 (noOfSamples dev h) in
  _ ← check "getValues";
  h ← driver dev "maximumValue" MaximumValue [];
  let maxADC := Num.c_int16 (maximumValue dev h) in
  _ ← check "maximumValue";
  adc2mVChAMax ← lift (Functions.adc2mV bufferAMax chARange maxADC);
  adc2mVChBMax ← lift (Functions.adc2mV bufferBMax chBRange maxADC);
  timeAxis ← lift (makeTimeAxis cTotalSamples timeIntervalns);
  _ ← lift (Plt.plot timeAxis adc2mVChAMax);
  _ ← lift (Plt.plot timeAxis adc2mVChBMax);
  _ ← driver dev "stop" Stop [];
  _ ← check "stop";
  _ ← driver dev "close" CloseUnit [];
  _ ← check "close";
  mret (Capture adc2mVChAMax adc2mVChBMax timeAxis).

(** The history at the entry of the ready poll, when the unit accepted
    the set-up: lines 43 to 126, newest first. *)
Definition setup (c : config) : list call :=
  [Call RunBlock [preTriggerSamples (cfg_totalSamples c);
                  cfg_totalSamples c - preTriggerSamples (cfg_totalSamples c);
                  cfg_timebase c; 0; 0];
   Call GetTimebase2 [cfg_timebase c; cfg_totalSamples c; 0; 0];
   Call SetSimpleTrigger [1; 0; 1024; 2; 0; 1000];
   Call SetChannel [1; 1; 1; 7; 0];
   Call SetChannel [0; 1; 1; 7; 0];
   Call OpenUnit []].

(** The script, for a sampling frequency and an acquisition time. *)
Definition run (log : float -> option float)
  (SAMPLING_FREQUENCY ACQUISITION_TIME : float) (dev : device) (fuel : nat)
  : outcome capture * world :=
  match configure log SAMPLING_FREQUENCY ACQUISITION_TIME with
  | inl e => (Raised e, start)
  | inr c => acquire dev fuel c start
  end.

(** The script as it stands: 500 kHz for one second. *)
Definition main (log : float -> option float) (dev : device) (fuel : nat)
  : outcome capture * world :=
  run log 500000 1 dev fuel.

(** What the spec asks of the configuration stage: the number of samples
    of the requested duration at the sample interval the unit achieves,
    that of the printed frequency. *)
Definition totalSamples_at_actual_interval (log : float -> option float)
  (SAMPLING_FREQUENCY ACQUISITION_TIME : float) : exn + Z :=
  c ← configure log SAMPLING_FREQUENCY ACQUISITION_TIME;
  totalSamples (cfg_frequency c) ACQUISITION_TIME.

End PicoScope2206B.

(** ** ps6000Examples/ps6000BlockExample.py *)

Module PS6000BlockExample.

Definition preTriggerSamples : Z := 2500.
Definition postTriggerSamples : Z := 2500.
Definition maxSamples : Z := preTriggerSamples + postTriggerSamples.
Definition timebase : Z := 8.

(** Line 138. *)
Definition makeTime (cmaxSamples : Z) (timeIntervalns : Q) : exn + list Q :=
  linspace 0 (inject_Z cmaxSamples * timeIntervalns) cmaxSamples.

(** The script; no status is asserted. *)
Definition run (dev : device) (fuel : nat) : outcome capture * world :=
  (_ ← driver dev "openunit" OpenUnit [];
   let chARange := 7 in
   _ ← driver dev "setChA" SetChannel [0; 1; 1; chARange; 0; 0];
   let chBRange := 7 in
   _ ← driver dev "setChB" SetChannel [1; 1; 1; chBRange; 0; 0];
   _ ← driver dev "trigger" SetSimpleTrigger [1; 0; 64; 2; 0; 1000];
   h ← driver dev "getTimebase2" GetTimebase2 [timebase; maxSamples; 1; 0];
   let timeIntervalns := timeIntervalNanoseconds dev h in
   _ ← driver dev "runBlock" RunBlock
         [preTriggerSamples; postTriggerSamples; timebase; 0; 0];
   _ ← poll dev fuel 0 0;
   _ ← driver dev "setDataBuffersA" SetDataBuffers [0; maxSamples; 0];
   _ ← driver dev "setDataBuffersB" SetDataBuffers [1; maxSamples; 0];
   let cmaxSamples := Num.c_int32 maxSamples in
   h ← driver dev "getValues" GetValues [0; cmaxSamples; 1; 0; 0];
   let bufferAMax := store_samples (Z.to_nat maxSamples) (samples dev h 0) in
   let bufferBMax := store_samples (Z.to_nat maxSamples) (samples dev h 1) in
   let cmaxSamples := Num.c_int32 (noOfSamples dev h) in
   let maxADC := Num.c_int16 32512 in
   adc2mVChAMax ← lift (Functions.adc2mV bufferAMax chARange maxADC);
   adc2mVChBMax ← lift (Functions.adc2mV bufferBMax chBRange maxADC);
   time ← lift (makeTime cmaxSamples timeIntervalns);
   _ ← lift (Plt.plot time adc2mVChAMax);
   _ ← lift (Plt.plot time adc2mVChBMax);
   _ ← invoke CloseUnit [];
   mret (Capture adc2mVChAMax adc2mVChBMax time)) start.

End PS6000BlockExample.

(** ** Comparing voltages *)

Module Volt.

(** Python's [a == b] on floats. *)
Definition eqb (a b : float) : bool := PrimFloat.eqb a b.







End Volt.

(** ** Reading a run *)

(** The number of ready polls in a history. *)
Definition polls (h : list call) : nat :=
  length (filter (fun c => fn c = IsReady) h).

(** The value of [ready] after the poll number [n], counted from zero, of
    a loop entered with the history [h]. *)
Definition ready_after (dev : device) (h : list call) (n : nat) : Z :=
  Num.c_int16 (ready_flag dev (replicate (S n) (Call IsReady []) ++ h)).

(** A unit that reports not ready at every poll. *)
Definition never_ready (dev : device) : Prop :=
  forall h, Num.c_int16 (ready_flag dev h) = 0.

(** A unit that accepts every call. *)
Definition always_ok (dev : device) : Prop :=
  forall h, pico_status dev h = 0.

(** A computation that only adds calls to the history. *)
Definition grows {A} (m : M A) : Prop :=
  forall w, exists l, issued (snd (m w)) = l ++ issued w.

(** ** The calls of the scripts, in their order *)

(** The keys of [status] that picoscope-2206B.py asserts. *)
Definition asserted : list string :=
  ["openunit"; "setChA"; "setChB"; "trigger"; "getTimebase2"; "runBlock";
   "setDataBuffersA"; "setDataBuffersB"; "getValues"; "maximumValue";
   "stop"; "close"].

(** The driver function whose status picoscope-2206B.py stores under
    each of these keys. *)
Definition operations : list (string * api) :=
  [("openunit", OpenUnit); ("setChA", SetChannel); ("setChB", SetChannel);
   ("trigger", SetSimpleTrigger); ("getTimebase2", GetTimebase2);
   ("runBlock", RunBlock); ("setDataBuffersA", SetDataBuffers);
   ("setDataBuffersB", SetDataBuffers); ("getValues", GetValues);
   ("maximumValue", MaximumValue); ("stop", Stop); ("close", CloseUnit)].

Definition operation (key : string) : option api :=
  snd <$> find (fun p => String.eqb (fst p) key) operations.

(** The calls of picoscope-2206B.py (lines 43 to 219) with their
    arguments, newest first, for [n] ready polls. *)
Definition calls_2206B (c : PicoScope2206B.config) (n : nat) : list call :=
  [Call CloseUnit [];
   Call Stop [];
   Call MaximumValue [];
   Call GetValues [0; Num.c_int32 (PicoScope2206B.cfg_totalSamples c); 0; 0; 0];
   Call SetDataBuffers [1; PicoScope2206B.cfg_totalSamples c; 0; 0];
   Call SetDataBuffers [0; PicoScope2206B.cfg_totalSamples c; 0; 0]]
  ++ replicate n (Call IsReady [])
  ++ PicoScope2206B.setup c.

(** The history of ps6000BlockExample.py at the entry of the ready poll
    (lines 20 to 82), newest first. *)
Definition setup_ps6000 : list call :=
  [Call RunBlock [2500; 2500; 8; 0; 0];
   Call GetTimebase2 [8; 5000; 1; 0];
   Call SetSimpleTrigger [1; 0; 64; 2; 0; 1000];
   Call SetChannel [1; 1; 1; 7; 0; 0];
   Call SetChannel [0; 1; 1; 7; 0; 0];
   Call OpenUnit []].

(** The calls of ps6000BlockExample.py (lines 20 to 152) with their
    arguments, newest first, for [n] ready polls. *)
Definition calls_ps6000 (n : nat) : list call :=
  [Call CloseUnit [];
   Call GetValues [0; 5000; 1; 0; 0];
   Call SetDataBuffers [1; 5000; 0];
   Call SetDataBuffers [0; 5000; 0]]
  ++ replicate n (Call IsReady [])
  ++ setup_ps6000.

(** ** Units to run the scripts against *)

Module Bench.

(** A unit that accepts every call, reports ready from the poll number
    [after] on, and returns the counts [chA] and [chB]. *)
Definition scope (dt : Q) (after : nat) (chA chB : list Z) (maxv : Z) : device :=
  {| pico_status := fun _ => 0;
     timeIntervalNanoseconds := fun _ => dt;
     ready_flag := fun h => if (after <=? polls h)%nat then 1 else 0;
     noOfSamples := fun _ => Z.of_nat (length chA);
     samples := fun _ ch => if ch =? 0 then chA else chB;
     maximumValue := fun _ => maxv |}.

(** The unit [d], except that the calls picked by [which] return [code]. *)
Definition refusing (which : call -> bool) (code : Z) (d : device) : device :=
  {| pico_status := fun h =>
       match h with
       | c :: _ => if which c then code else pico_status d h
       | [] => pico_status d h
       end;
     timeIntervalNanoseconds := timeIntervalNanoseconds d;
     ready_flag := ready_flag d;
     noOfSamples := noOfSamples d;
     samples := samples d;
     maximumValue := maximumValue d |}.

(** The unit [d], except that it never reports ready. *)
Definition asleep (d : device) : device :=
  {| pico_status := pico_status d;
     timeIntervalNanoseconds := timeIntervalNanoseconds d;
     ready_flag := fun _ => 0;
     noOfSamples := noOfSamples d;
     samples := samples d;
     maximumValue := maximumValue d |}.

(** The unit [d], except that it reports [n] samples as returned. *)
Definition returning (n : Z) (d : device) : device :=
  {| pico_status := pico_status d;
     timeIntervalNanoseconds := timeIntervalNanoseconds d;
     ready_flag := ready_flag d;
     noOfSamples := fun _ => n;
     samples := samples d;
     maximumValue := maximumValue d |}.

(** A platform whose [math.log] refuses every argument. *)
Definition no_log : float -> option float := fun _ => None.

Definition is_setChA (c : call) : bool :=
  bool_decide (fn c = SetChannel /\ head (args c) = Some 0).

(** Three counts per channel, ready at the second poll, 2000 ns. *)
Definition demo : device := scope 2000 2 [0; 16256; 32512] [1; -1; 40000] 32512.

End Bench.
(** * Properties *)

(** ** The sample converter *)

Section Conversion.

Import Functions.




Lemma adc2mV_ok (bufferADC : list Z) (range vRange maxADC : Z) :
  py_index channelInputRanges range = Some vRange -> maxADC <> 0 ->
  adc2mV bufferADC range maxADC
  = inr ((fun x => convert x vRange maxADC) <$> bufferADC).
Proof.
  intros Hr Hm. unfold adc2mV. rewrite Hr.
  destruct (maxADC =? 0) eqn:E; [apply Z.eqb_eq in E; contradiction|reflexivity].
Qed.

(** C2. For every buffer of raw counts, every range of the table and
    every nonzero maximum count, the converter returns one voltage per
    count, [voltageMv[i] = rawCounts[i] * fullScaleRangeMv / maxADCCount]
    (the binary64 quotient of the two integers); the counts
    [0, 16256, 32512] at 2000 mV and a maximum count of 32512 give
    [0.0, 1000.0, 2000.0]. *)
Theorem adc2mV_formula :
  (forall (rawCounts : list Z) (range fullScaleRangeMv maxADCCount : Z),
      py_index channelInputRanges range = Some fullScaleRangeMv ->
      maxADCCount <> 0 ->
      exists voltageMv : list float,
        adc2mV rawCounts range maxADCCount = inr voltageMv
        /\ length voltageMv = length rawCounts
        /\ forall (i : nat) (count : Z),
            rawCounts !! i = Some count ->
            voltageMv !! i
            = Some (PrimFloat.div (Num.float_of_Z (count * fullScaleRangeMv))
                      (Num.float_of_Z maxADCCount)))
  /\ py_index channelInputRanges 7 = Some 2000
  /\ adc2mV [0; 16256; 32512] 7 32512 = inr [0%float; 1000%float; 2000%float].
Proof.
  split; [|split; reflexivity].
  intros rawCounts range v m Hr Hm.
  exists ((fun x => convert x v m) <$> rawCounts). split; [|split].
  - apply adc2mV_ok; assumption.
  - apply length_fmap.
  - intros i count Hi. rewrite list_lookup_fmap, Hi. reflexivity.
Qed.

Lemma adc2mV_formula_witness :
  exists voltageMv : list float,
    adc2mV [0; 16256; 32512] 7 32512 = inr voltageMv
    /\ length voltageMv = 3%nat
    /\ voltageMv !! 1%nat = Some 1000%float.
Proof.
  destruct (proj1 adc2mV_formula [0; 16256; 32512] 7 2000 32512)
    as (v & Hv & Hlen & Hnth); [reflexivity | lia |].
  exists v. split; [exact Hv|]. split; [exact Hlen|].
  exact (Hnth 1%nat 16256 eq_refl).
Defined.







End Conversion.

(** ** The configuration stage of picoscope-2206B.py *)

Section Configuration.

Import PicoScope2206B.

Lemma py_round_near (x : Q) :
  (x - (1 # 2) <= inject_Z (Num.py_round x) <= x + (1 # 2))%Q.
Proof.
  unfold Num.py_round.
  pose proof (Qfloor_le x) as Hlo. pose proof (Qlt_floor x) as Hhi.
  rewrite inject_Z_plus in Hhi. change (inject_Z 1) with 1%Q in Hhi.
  destruct (Qcompare_spec (x - inject_Z (Qfloor x)) (1 # 2)) as [E|E|E].
  - destruct (Z.even (Qfloor x));
      [|rewrite inject_Z_plus; change (inject_Z 1) with 1%Q]; lra.
  - lra.
  - rewrite inject_Z_plus. change (inject_Z 1) with 1%Q. lra.
Qed.

Lemma py_round_nonneg (x : Q) : (0 <= x)%Q -> 0 <= Num.py_round x.
Proof.
  intros H. pose proof (py_round_near x) as [Hlo _].
  assert (inject_Z 0 < inject_Z (Num.py_round x + 1))%Q as Hlt.
  { rewrite inject_Z_plus. change (inject_Z 1) with 1%Q.
    change (inject_Z 0) with 0%Q. lra. }
  rewrite <- Zlt_Qlt in Hlt. lia.
Qed.

(** [round(n / 2)] is the floor of the half, except that a tie goes to
    the even neighbour: one more when [n] is 3 modulo 4. *)
Lemma preTriggerSamples_half_even (total : Z) :
  preTriggerSamples total = total / 2 + (if total mod 4 =? 3 then 1 else 0).
Proof.
  unfold preTriggerSamples, Num.py_round.
  assert (Hf : Qfloor (inject_Z total / 2) = total / 2).
  { unfold Qdiv, Qmult, Qinv, inject_Z, Qfloor. cbn. f_equal. lia. }
  rewrite Hf.
  unfold Qcompare, Qminus, Qplus, Qopp, Qdiv, Qmult, Qinv, inject_Z. cbn.
  rewrite Zeven_mod.
  destruct (Z.compare_spec
              ((total * 1 * 1 + - (total / 2) * Z.pos (1 * 2)) * 2)
              (1 * Z.pos (1 * 2 * 1)));
    destruct (Z.eqb_spec (total mod 4) 3);
    try destruct (Z.eqb_spec ((total / 2) mod 2) 0);
    Z.to_euclidean_division_equations; lia.
Qed.

(** C4, as stated, fails: one sample per second for three seconds is a
    valid request, it gives three samples, and two of them, not one, are
    taken before the trigger. *)
Lemma pre_trigger_is_not_the_floor :
  (0 <? 1)%float = true /\ (0 <? 3)%float = true
  /\ totalSamples 1 3 = inr 3
  /\ preTriggerSamples 3 = 2
  /\ preTriggerSamples 3 <> 3 / 2.
Proof.
  split; [reflexivity|]. split; [reflexivity|].
  split; [vm_compute; reflexivity|]. split; [reflexivity|discriminate].
Qed.

(** C4, amended. For every request and the [totalSamples] derived from
    it, the samples before and after the trigger add up to
    [totalSamples], and [preTriggerSamples] is [totalSamples / 2] rounded
    to the nearest integer, a tie to the even one: the floor of the half,
    plus one when [totalSamples] is 3 modulo 4. In the ps6000 script both
    halves are the constant 2500. *)
Theorem pre_post_split (SAMPLING_FREQUENCY ACQUISITION_TIME : float)
  (total : Z) :
  totalSamples SAMPLING_FREQUENCY ACQUISITION_TIME = inr total ->
  preTriggerSamples total + postTriggerSamples total = total
  /\ preTriggerSamples total
     = total / 2 + (if total mod 4 =? 3 then 1 else 0)
  /\ PS6000BlockExample.preTriggerSamples + PS6000BlockExample.postTriggerSamples
     = PS6000BlockExample.maxSamples
  /\ PS6000BlockExample.preTriggerSamples = PS6000BlockExample.maxSamples / 2.
Proof.
  intros _. split; [|split; [|split]].
  - unfold postTriggerSamples. lia.
  - apply preTriggerSamples_half_even.
  - reflexivity.
  - reflexivity.
Qed.

Lemma pre_post_split_witness :
  totalSamples 500000 1 = inr 500000
  /\ preTriggerSamples 500000 = 250000 /\ postTriggerSamples 500000 = 250000.
Proof.
  assert (H : totalSamples 500000 1 = inr 500000) by (vm_compute; reflexivity).
  destruct (pre_post_split 500000 1 500000 H) as (Hsum & Hpre & _).
  split; [exact H|]. split.
  - exact Hpre.
  - unfold postTriggerSamples. rewrite Hpre. reflexivity.
Defined.






Lemma bind_inr {A B} (m : exn + A) (k : A -> exn + B) (b : B) :
  (m ≫= k) = inr b -> exists a, m = inr a /\ k a = inr b.
Proof. destruct m as [e'|a]; cbn; [discriminate|eauto]. Qed.



Lemma configure_totalSamples log f T c :
  configure log f T = inr c -> totalSamples f T = inr (cfg_totalSamples c).
Proof.
  unfold configure. intros H.
  apply bind_inr in H as (tb & _ & H). apply bind_inr in H as (fr & _ & H).
  apply bind_inr in H as (n & Hn & H). injection H as <-. exact Hn.
Qed.

(** C6, as stated, fails: at 400 kHz the timebase is 158, the unit
    samples at 62.5 MHz / 156, one second at that interval is 400641
    samples, and the script asks for 400000. *)
Lemma totalSamples_ignores_the_timebase :
  timebase Bench.no_log 400000 = inr 158
  /\ totalSamples_at_actual_interval Bench.no_log 400000 1 = inr 400641
  /\ totalSamples 400000 1 = inr 400000.
Proof. repeat split; vm_compute; reflexivity. Qed.

(** C6, amended. For every request that the configuration stage accepts,
    [totalSamples] is computed from the requested duration and the
    requested sample interval: it is the integer nearest to the binary64
    quotient of the duration by the binary64 quotient
    [1 / SAMPLING_FREQUENCY], whatever the timebase and whatever the
    platform's logarithm that the timebase may depend on. The request of
    500 kHz for one second gives 500000 samples (and the timebase 127).
    The two roundings show: 49 Hz for half a second give 25 samples,
    where the product of duration and frequency, 24.5, rounds to 24. *)
Theorem totalSamples_from_request :
  (forall (log : float -> option float)
          (SAMPLING_FREQUENCY ACQUISITION_TIME : float) (c : config),
      configure log SAMPLING_FREQUENCY ACQUISITION_TIME = inr c ->
      exists samplingInterval q : float,
        (SAMPLING_FREQUENCY =? 0)%float = false
        /\ samplingInterval = (1 / SAMPLING_FREQUENCY)%float
        /\ (samplingInterval =? 0)%float = false
        /\ q = (ACQUISITION_TIME / samplingInterval)%float
        /\ Py.round q = inr (cfg_totalSamples c))
  /\ (forall (log log' : float -> option float)
             (SAMPLING_FREQUENCY ACQUISITION_TIME : float) (c c' : config),
         configure log SAMPLING_FREQUENCY ACQUISITION_TIME = inr c ->
         configure log' SAMPLING_FREQUENCY ACQUISITION_TIME = inr c' ->
         cfg_totalSamples c = cfg_totalSamples c')
  /\ (forall log : float -> option float,
         configure log 500000 1 = inr (Config 127 500000 500000))
  /\ totalSamples 49 0.5 = inr 25
  /\ Py.round (0.5 * 49) = inr 24.
Proof.
  split; [|split; [|split; [|split]]].
  - intros log f T c H. apply configure_totalSamples in H.
    unfold totalSamples, samplingInterval, Py.truediv in H.
    destruct (f =? 0)%float eqn:Hf; [discriminate|]. cbn in H.
    destruct (1 / f =? 0)%float eqn:Hsi; [discriminate|]. cbn in H.
    exists (1 / f)%float, (T / (1 / f))%float. repeat split; assumption.
  - intros log log' f T c c' H H'.
    apply configure_totalSamples in H, H'. congruence.
  - intros log. vm_compute. reflexivity.
  - vm_compute. reflexivity.
  - vm_compute. reflexivity.
Qed.

Lemma totalSamples_from_request_witness :
  exists c : config,
    configure Bench.no_log 400000 1 = inr c
    /\ cfg_timebase c = 158
    /\ Py.round (1 / (1 / 400000))%float = inr (cfg_totalSamples c).
Proof.
  destruct (configure Bench.no_log 400000 1) as [e|c] eqn:E;
    [vm_compute in E; discriminate E|].
  destruct (proj1 totalSamples_from_request Bench.no_log 400000%float 1%float c E)
    as (si & q & _ & -> & _ & -> & H).
  exists c. split; [reflexivity|]. split; [|exact H].
  vm_compute in E. injection E as <-. reflexivity.
Defined.

(** *** The sign of the number of samples *)

Lemma round_aux_sign (s : bool) (m e : Z) (l : location) :
  match binary_round_aux prec emax s m e l with
  | S754_nan => True
  | S754_zero s' | S754_infinity s' | S754_finite s' _ _ => s' = s
  end.
Proof.
  unfold binary_round_aux.
  destruct (shr_fexp _ _ _ _ _) as [mrs' e'].
  destruct (shr_fexp _ _ _ _ _) as [mrs'' e''].
  destruct (shr_m mrs''); [reflexivity| |exact I].
  destruct (_ <=? _); reflexivity.
Qed.

Lemma div_sign (x y : spec_float) :
  Py.not_negative x -> Py.positive_or_nan y -> Py.not_negative (SF64div x y).
Proof.
  unfold SF64div, SFdiv.
  destruct x as [sx|sx| |sx mx ex], y as [sy|sy| |sy my ey]; cbn;
    try tauto; try (intros; subst; reflexivity).
  intros -> ->. destruct (SFdiv_core_binary _ _ _ _ _ _) as [[mz ez] lz].
  pose proof (round_aux_sign (xorb false false) mz ez lz) as H.
  destruct (binary_round_aux _ _ _ _ _ _); cbn; auto.
Qed.

Lemma ltb_zero_positive (x : float) :
  (0 <? x)%float = true -> Py.positive_or_nan (Prim2SF x).
Proof.
  rewrite FloatAxioms.ltb_spec. change (Prim2SF 0) with (S754_zero false).
  unfold SFltb, SFcompare.
  destruct (Prim2SF x) as [s|[|]| |[|] m e]; cbn; try discriminate; reflexivity.
Qed.

Lemma leb_zero_not_negative (x : float) :
  (0 <=? x)%float = true -> Py.not_negative (Prim2SF x).
Proof.
  rewrite FloatAxioms.leb_spec. change (Prim2SF 0) with (S754_zero false).
  unfold SFleb, SFcompare.
  destruct (Prim2SF x) as [s|[|]| |[|] m e]; cbn; try discriminate; reflexivity.
Qed.

Lemma eqb_zero_false (x : float) :
  (x =? 0)%float = false -> Py.not_negative (Prim2SF x) ->
  Py.positive_or_nan (Prim2SF x).
Proof.
  rewrite FloatAxioms.eqb_spec. change (Prim2SF 0) with (S754_zero false).
  unfold SFeqb, SFcompare.
  destruct (Prim2SF x) as [s|[|]| |[|] m e]; cbn; try discriminate; auto.
Qed.

Lemma value_nonneg (m : positive) (e : Z) : (0 <= Py.value false m e)%Q.
Proof.
  unfold Py.value. destruct (0 <=? e).
  - change 0%Q with (inject_Z 0). rewrite <- Zle_Qle.
    apply Z.mul_nonneg_nonneg; [lia|]. apply Z.pow_nonneg. lia.
  - unfold Qle. cbn. lia.
Qed.

Lemma round_not_negative (x : float) (n : Z) :
  Py.not_negative (Prim2SF x) -> Py.round x = inr n -> 0 <= n.
Proof.
  unfold Py.round. destruct (Prim2SF x) as [s|s| |s m e]; cbn;
    try discriminate.
  - intros _ [= <-]. lia.
  - intros -> [= <-]. apply py_round_nonneg, value_nonneg.
Qed.

Lemma totalSamples_nonneg (f T : float) (total : Z) :
  (0 <? f)%float = true -> (0 <=? T)%float = true ->
  totalSamples f T = inr total -> 0 <= total.
Proof.
  intros Hf HT H. unfold totalSamples, samplingInterval, Py.truediv in H.
  destruct (f =? 0)%float; [discriminate|]. cbn in H.
  destruct (1 / f =? 0)%float eqn:Hsi; [discriminate|]. cbn in H.
  apply (round_not_negative _ _) in H; [exact H|].
  rewrite FloatAxioms.div_spec. apply div_sign; [exact (leb_zero_not_negative _ HT)|].
  apply eqb_zero_false; [exact Hsi|].
  rewrite FloatAxioms.div_spec. apply div_sign; [vm_compute; reflexivity|].
  exact (ltb_zero_positive _ Hf).
Qed.

(** For a positive sampling frequency and an acquisition time that is
    not negative, the number of samples that the configuration stage
    computes is not negative, the samples before and after the trigger
    are both between zero and that number, and they differ by one at most
    (either may be the larger). *)
Theorem sample_counts_in_range (f T : float) (total : Z) :
  (0 <? f)%float = true -> (0 <=? T)%float = true ->
  totalSamples f T = inr total ->
  0 <= total
  /\ 0 <= preTriggerSamples total <= total
  /\ 0 <= postTriggerSamples total <= total
  /\ preTriggerSamples total <= postTriggerSamples total + 1
  /\ postTriggerSamples total <= preTriggerSamples total + 1.
Proof.
  intros Hf HT H. pose proof (totalSamples_nonneg f T total Hf HT H) as H0.
  unfold postTriggerSamples. rewrite preTriggerSamples_half_even.
  destruct (Z.eqb_spec (total mod 4) 3);
    Z.to_euclidean_division_equations; lia.
Qed.

Lemma sample_counts_in_range_witness :
  totalSamples 1 5 = inr 5
  /\ preTriggerSamples 5 = 2 /\ postTriggerSamples 5 = 3.
Proof.
  assert (H : totalSamples 1 5 = inr 5) by (vm_compute; reflexivity).
  pose proof (sample_counts_in_range 1 5 5 eq_refl eq_refl H) as (_ & _ & _ & Hle & _).
  split; [exact H|]. split; reflexivity.
Defined.

End Configuration.

(** ** The time axis *)

Section TimeAxis.

Lemma linspace_lookup (start stop : Q) (num : Z) (i : nat) :
  Z.of_nat i < num ->
  exists l, linspace start stop num = inr l
    /\ length l = Z.to_nat num
    /\ l !! i
       = Some (start + inject_Z (Z.of_nat i)
                       * ((stop - start) / inject_Z (num - 1)))%Q.
Proof.
  intros Hi. unfold linspace.
  destruct (Z.ltb_spec num 0); [lia|].
  eexists. split; [reflexivity|]. split.
  - rewrite length_fmap. apply length_seqZ.
  - rewrite list_lookup_fmap.
    assert (seqZ 0 num !! i = Some (Z.of_nat i)) as ->.
    { apply lookup_seqZ. lia. }
    reflexivity.
Qed.

(** The time axis of the ps6000 script: as many points as samples were
    returned, from zero, [cmaxSamples / (cmaxSamples - 1)] sample
    intervals apart. *)
Lemma makeTime_lookup (cmaxSamples : Z) (timeIntervalns : Q) (i : nat) :
  Z.of_nat i < cmaxSamples -> 2 <= cmaxSamples ->
  exists time, PS6000BlockExample.makeTime cmaxSamples timeIntervalns = inr time
    /\ length time = Z.to_nat cmaxSamples
    /\ exists t, time !! i = Some t
         /\ (t == inject_Z (Z.of_nat i)
                  * (timeIntervalns * (inject_Z cmaxSamples / inject_Z (cmaxSamples - 1))))%Q.
Proof.
  intros Hi HN. unfold PS6000BlockExample.makeTime.
  destruct (linspace_lookup 0 (inject_Z cmaxSamples * timeIntervalns) cmaxSamples i Hi)
    as (l & Hl & Hlen & Hnth).
  exists l. split; [exact Hl|]. split; [exact Hlen|].
  eexists. split; [exact Hnth|].
  field. intros H0. unfold Qeq, inject_Z in H0. cbn in H0. lia.
Qed.

(** The time axis of the 2206B script: the same, with the sample interval
    less one nanosecond. *)
Lemma makeTimeAxis_lookup (cTotalSamples : Z) (timeIntervalns : Q) (i : nat) :
  Z.of_nat i < cTotalSamples -> 2 <= cTotalSamples ->
  exists timeAxis,
    PicoScope2206B.makeTimeAxis cTotalSamples timeIntervalns = inr timeAxis
    /\ length timeAxis = Z.to_nat cTotalSamples
    /\ exists t, timeAxis !! i = Some t
         /\ (t == inject_Z (Z.of_nat i)
                  * ((timeIntervalns - 1)
                     * (inject_Z cTotalSamples / inject_Z (cTotalSamples - 1))))%Q.
Proof.
  intros Hi HN. unfold PicoScope2206B.makeTimeAxis.
  destruct (linspace_lookup 0 (inject_Z cTotalSamples * (timeIntervalns - 1))
              cTotalSamples i Hi) as (l & Hl & Hlen & Hnth).
  exists l. split; [exact Hl|]. split; [exact Hlen|].
  eexists. split; [exact Hnth|].
  field. intros H0. unfold Qeq, inject_Z in H0. cbn in H0. lia.
Qed.

(** C3 at two captures. The ps6000 unit returns its 5000 samples, 80 ns
    apart: the second point of the time axis is at 400000/4999 ns, not at
    80 ns. The 2206B returns its 500000 samples, 2000 ns apart: the
    second point is at 999500000/499999 ns, not at 2000 ns. Both axes
    have one point per sample. *)
Theorem time_axis_spacing :
  (exists time, PS6000BlockExample.makeTime 5000 80 = inr time
     /\ length time = Z.to_nat 5000
     /\ exists t1, time !! 1%nat = Some t1
          /\ (t1 == 400000 # 4999)%Q /\ ~ (t1 == 1 * 80)%Q)
  /\ (exists timeAxis, PicoScope2206B.makeTimeAxis 500000 2000 = inr timeAxis
        /\ length timeAxis = Z.to_nat 500000
        /\ exists t1, timeAxis !! 1%nat = Some t1
             /\ (t1 == 999500000 # 499999)%Q /\ ~ (t1 == 1 * 2000)%Q).
Proof.
  split.
  - destruct (makeTime_lookup 5000 80 1) as (time & Ht & Hlen & t1 & H1 & Heq);
      [lia | lia |].
    exists time. split; [exact Ht|]. split; [exact Hlen|].
    exists t1. split; [exact H1|].
    assert (H : (t1 == 400000 # 4999)%Q) by (rewrite Heq; reflexivity).
    split; [exact H|]. rewrite H. discriminate.
  - destruct (makeTimeAxis_lookup 500000 2000 1)
      as (time & Ht & Hlen & t1 & H1 & Heq); [lia | lia |].
    exists time. split; [exact Ht|]. split; [exact Hlen|].
    exists t1. split; [exact H1|].
    assert (H : (t1 == 999500000 # 499999)%Q) by (rewrite Heq; reflexivity).
    split; [exact H|]. intros E. rewrite H in E. discriminate E.
Qed.


(** The time axes are uniform, from zero, one point per returned sample;
    their spacing is the sample interval (less one nanosecond in the
    2206B script) times [n / (n - 1)], for [n] returned samples. *)
Theorem time_axis_uniform (n : Z) (timeIntervalns : Q) (i : nat) :
  Z.of_nat i < n -> 2 <= n ->
  (exists time,
      PS6000BlockExample.makeTime n timeIntervalns = inr time
      /\ length time = Z.to_nat n
      /\ exists t, time !! i = Some t
           /\ (t == inject_Z (Z.of_nat i)
                    * (timeIntervalns * (inject_Z n / inject_Z (n - 1))))%Q)
  /\ (exists timeAxis,
         PicoScope2206B.makeTimeAxis n timeIntervalns = inr timeAxis
         /\ length timeAxis = Z.to_nat n
         /\ exists t, timeAxis !! i = Some t
              /\ (t == inject_Z (Z.of_nat i)
                       * ((timeIntervalns - 1) * (inject_Z n / inject_Z (n - 1))))%Q).
Proof.
  intros Hi Hn. split.
  - apply makeTime_lookup; assumption.
  - apply makeTimeAxis_lookup; assumption.
Qed.

Lemma time_axis_uniform_witness :
  exists time,
    PS6000BlockExample.makeTime 3 80 = inr time
    /\ length time = 3%nat
    /\ exists t, time !! 2%nat = Some t /\ (t == 240)%Q.
Proof.
  destruct (proj1 (time_axis_uniform 3 80 2 ltac:(lia) ltac:(lia)))
    as (time & Ht & Hlen & t & Hnth & Heq).
  exists time. split; [exact Ht|]. split; [exact Hlen|].
  exists t. split; [exact Hnth|]. rewrite Heq. reflexivity.
Defined.

End TimeAxis.

(** ** More on the time axes (lines 202 and 138) *)

Section TimeAxisOrder.

Lemma ratio_pos (n : Z) : 2 <= n -> (0 < inject_Z n / inject_Z (n - 1))%Q.
Proof.
  intros Hn. apply Qlt_shift_div_l.
  - change 0%Q with (inject_Z 0). rewrite <- Zlt_Qlt. lia.
  - rewrite Qmult_0_l. change 0%Q with (inject_Z 0). rewrite <- Zlt_Qlt. lia.
Qed.

Lemma scaled_lt (i j : nat) (s : Q) :
  (i < j)%nat ->
  (inject_Z (Z.of_nat i) * s < inject_Z (Z.of_nat j) * s <-> 0 < s)%Q.
Proof.
  intros Hij.
  assert (Hlt : (inject_Z (Z.of_nat i) < inject_Z (Z.of_nat j))%Q)
    by (rewrite <- Zlt_Qlt; lia).
  split; intros H; nra.
Qed.

(** The time axis of the ps6000 script increases from each point to any
    later one exactly when the sample interval is positive. That of the
    2206B script does so exactly when the sample interval exceeds 1 ns;
    at 1 ns all its points coincide. *)
Theorem time_axis_increasing (n : Z) (timeIntervalns : Q) (i j : nat) :
  (i < j)%nat -> Z.of_nat j < n ->
  (exists time ti tj,
      PS6000BlockExample.makeTime n timeIntervalns = inr time
      /\ time !! i = Some ti /\ time !! j = Some tj
      /\ ((ti < tj)%Q <-> (0 < timeIntervalns)%Q))
  /\ (exists timeAxis ti tj,
         PicoScope2206B.makeTimeAxis n timeIntervalns = inr timeAxis
         /\ timeAxis !! i = Some ti /\ timeAxis !! j = Some tj
         /\ ((ti < tj)%Q <-> (1 < timeIntervalns)%Q)
         /\ ((ti == tj)%Q <-> (timeIntervalns == 1)%Q)).
Proof.
  intros Hij Hj.
  assert (Hn : 2 <= n) by lia.
  pose proof (ratio_pos n Hn) as Hk.
  split.
  - destruct (makeTime_lookup n timeIntervalns i)
      as (time & Ht & _ & ti & Hi & Ei); [lia|lia|].
    destruct (makeTime_lookup n timeIntervalns j)
      as (time' & Ht' & _ & tj & Hj' & Ej); [lia|lia|].
    rewrite Ht in Ht'. injection Ht' as <-.
    exists time, ti, tj.
    split; [exact Ht|]. split; [exact Hi|]. split; [exact Hj'|].
    rewrite Ei, Ej, (scaled_lt i j _ Hij).
    set (k := (inject_Z n / inject_Z (n - 1))%Q) in *. split; intros H; nra.
  - destruct (makeTimeAxis_lookup n timeIntervalns i)
      as (time & Ht & _ & ti & Hi & Ei); [lia|lia|].
    destruct (makeTimeAxis_lookup n timeIntervalns j)
      as (time' & Ht' & _ & tj & Hj' & Ej); [lia|lia|].
    rewrite Ht in Ht'. injection Ht' as <-.
    exists time, ti, tj.
    split; [exact Ht|]. split; [exact Hi|]. split; [exact Hj'|].
    assert (Hlt : (inject_Z (Z.of_nat i) < inject_Z (Z.of_nat j))%Q)
      by (rewrite <- Zlt_Qlt; lia).
    rewrite Ei, Ej.
    set (k := (inject_Z n / inject_Z (n - 1))%Q) in *.
    split.
    + rewrite (scaled_lt i j _ Hij). split; intros H; nra.
    + split; intros H.
      * assert ((timeIntervalns - 1) * k == 0)%Q as H0 by nra.
        apply Qmult_integral in H0 as [H0|H0]; lra.
      * rewrite H. ring.
Qed.

Lemma time_axis_increasing_witness :
  exists timeAxis ti tj,
    PicoScope2206B.makeTimeAxis 3 1 = inr timeAxis
    /\ timeAxis !! 0%nat = Some ti /\ timeAxis !! 2%nat = Some tj
    /\ (ti == tj)%Q.
Proof.
  destruct (proj2 (time_axis_increasing 3 1 0 2 ltac:(lia) ltac:(lia)))
    as (timeAxis & ti & tj & Ht & Hi & Hj & _ & Heq).
  exists timeAxis, ti, tj.
  split; [exact Ht|]. split; [exact Hi|]. split; [exact Hj|].
  apply Heq. reflexivity.
Defined.

End TimeAxisOrder.

(** ** Runs against a unit *)

Section Runs.

Lemma bind_unfold {A B} (m : M A) (k : A -> M B) (w : world) :
  (m ≫= k) w = match m w with
               | (Returned a, w') => k a w'
               | (Raised e, w') => (Raised e, w')
               | (StillPolling, w') => (StillPolling, w')
               end.
Proof. reflexivity. Qed.

Lemma driver_unfold {B} dev key f a (k : list call -> M B) (w : world) :
  (driver dev key f a ≫= k) w =
  let h := Call f a :: issued w in
  k h (World h (<[key := pico_status dev h]> (status w))).
Proof. reflexivity. Qed.

Lemma check_unfold {B} key code (k : unit -> M B) h st :
  (check key ≫= k) (World h (<[key := code]> st)) =
  if code =? 0 then k tt (World h (<[key := code]> st))
  else (Raised (DeviceError code), World h (<[key := code]> st)).
Proof.
  rewrite bind_unfold. unfold check. cbn [status].
  rewrite lookup_insert_eq. unfold Functions.assert_pico_ok, Functions.PICO_OK.
  destruct (code =? 0); reflexivity.
Qed.

Lemma plot_fmap {A B C D} (f : A -> B) (g : C -> D) (x : list A) (y : list C) :
  Plt.plot (f <$> x) (g <$> y)
  = if (length x =? length y)%nat then inr tt else inl ValueError.
Proof. unfold Plt.plot. rewrite !length_fmap. reflexivity. Qed.

Lemma adc2mV_at_7 (buf : list Z) (m : Z) :
  Functions.adc2mV buf 7 m
  = if m =? 0 then inl ZeroDivisionError
    else inr ((fun x => Functions.convert x 2000 m) <$> buf).
Proof. reflexivity. Qed.

Lemma length_store_samples (n : nat) (data : list Z) :
  length (store_samples n data) = n.
Proof.
  unfold store_samples. rewrite length_take, length_app, length_replicate. lia.
Qed.

(** *** The ready poll *)

Lemma replicate_snoc_cons {A} (n : nat) (x : A) (l : list A) :
  replicate n x ++ x :: l = x :: replicate n x ++ l.
Proof. induction n as [|n IH]; cbn; [reflexivity|]. rewrite IH. reflexivity. Qed.

Lemma polls_replicate n l :
  polls (replicate n (Call IsReady []) ++ l) = (n + polls l)%nat.
Proof.
  unfold polls. rewrite filter_app, length_app. f_equal.
  induction n as [|n IH]; [reflexivity|].
  cbn [replicate]. rewrite filter_cons_True by reflexivity.
  cbn [length]. rewrite IH. reflexivity.
Qed.

Lemma poll_nonzero dev fuel ready w :
  ready <> 0 -> poll dev fuel ready 0 w = (Returned ready, w).
Proof.
  intros H. destruct fuel; cbn [poll];
    destruct (Z.eqb_spec ready 0); try contradiction; reflexivity.
Qed.

Lemma poll_zero_step dev fuel w :
  poll dev (S fuel) 0 0 w =
  let h := Call IsReady [] :: issued w in
  poll dev fuel (Num.c_int16 (ready_flag dev h)) 0
    (World h (<["isReady" := pico_status dev h]> (status w))).
Proof. reflexivity. Qed.

(** The poll issues ready polls only, and raises nothing. *)
Lemma poll_issued dev fuel : forall ready w,
  exists n, issued (snd (poll dev fuel ready 0 w))
            = replicate n (Call IsReady []) ++ issued w
    /\ forall e, fst (poll dev fuel ready 0 w) <> Raised e.
Proof.
  induction fuel as [|fuel IH]; intros ready w.
  - exists 0%nat. cbn [poll].
    destruct (negb _); split; try reflexivity; discriminate.
  - destruct (Z.eq_dec ready 0) as [->|Hr].
    + rewrite poll_zero_step. cbv zeta.
      destruct (IH (Num.c_int16 (ready_flag dev (Call IsReady [] :: issued w)))
                  (World (Call IsReady [] :: issued w)
                     (<["isReady" := pico_status dev (Call IsReady [] :: issued w)]>
                        (status w))))
        as (n & Hn & He).
      exists (S n). split; [|exact He].
      rewrite Hn. cbn [issued]. rewrite replicate_snoc_cons. reflexivity.
    + rewrite poll_nonzero by assumption.
      exists 0%nat. split; [reflexivity|discriminate].
Qed.

Lemma poll_asleep dev : never_ready dev -> forall fuel w,
  fst (poll dev fuel 0 0 w) = StillPolling
  /\ issued (snd (poll dev fuel 0 0 w))
     = replicate fuel (Call IsReady []) ++ issued w.
Proof.
  intros Hn. induction fuel as [|fuel IH]; intros w.
  - split; reflexivity.
  - rewrite poll_zero_step. cbv zeta. rewrite Hn.
    destruct (IH (World (Call IsReady [] :: issued w)
                    (<["isReady" := pico_status dev (Call IsReady [] :: issued w)]>
                       (status w)))) as [H1 H2].
    split; [exact H1|]. rewrite H2. cbn [issued].
    rewrite replicate_snoc_cons. reflexivity.
Qed.

Lemma poll_returns_ready dev fuel : forall w r w',
  poll dev fuel 0 0 w = (Returned r, w') ->
  exists n, ready_after dev (issued w) n <> 0.
Proof.
  induction fuel as [|fuel IH]; intros w r w' H.
  - discriminate H.
  - rewrite poll_zero_step in H. cbv zeta in H.
    destruct (Z.eq_dec (Num.c_int16 (ready_flag dev (Call IsReady [] :: issued w))) 0)
      as [E|E].
    + rewrite E in H. apply IH in H as [n Hn]. exists (S n).
      unfold ready_after in *. cbn [issued] in Hn.
      rewrite replicate_snoc_cons in Hn. exact Hn.
    + exists 0%nat. exact E.
Qed.

Lemma poll_ready_returns dev n : forall w,
  ready_after dev (issued w) n <> 0 ->
  exists r w', poll dev (S n) 0 0 w = (Returned r, w') /\ r <> 0.
Proof.
  induction n as [|n IH]; intros w H.
  - rewrite poll_zero_step. cbv zeta.
    eexists _, _. split; [apply poll_nonzero; exact H|exact H].
  - rewrite poll_zero_step. cbv zeta.
    destruct (Z.eq_dec (Num.c_int16 (ready_flag dev (Call IsReady [] :: issued w))) 0)
      as [E|E].
    + rewrite E. apply IH. unfold ready_after in *. cbn [issued].
      rewrite replicate_snoc_cons. exact H.
    + eexists _, _. split; [apply poll_nonzero; exact E|exact E].
Qed.

(** *** Histories only grow *)

Lemma grows_bind {A B} (m : M A) (k : A -> M B) :
  grows m -> (forall a, grows (k a)) -> grows (m ≫= k).
Proof.
  intros Hm Hk w. rewrite bind_unfold. destruct (Hm w) as [l Hl].
  destruct (m w) as [[a|e|] w1]; cbn [snd] in *.
  - destruct (Hk a w1) as [l' Hl']. exists (l' ++ l).
    rewrite Hl', Hl. apply app_assoc.
  - exists l. exact Hl.
  - exists l. exact Hl.
Qed.

Lemma grows_ret {A} (a : A) : grows (mret a).
Proof. intros w. exists []. reflexivity. Qed.

Lemma grows_raise {A} (e : exn) : grows (@raise A e).
Proof. intros w. exists []. reflexivity. Qed.

Lemma grows_lift {A} (r : exn + A) : grows (lift r).
Proof. destruct r; [apply grows_raise|apply grows_ret]. Qed.

Lemma grows_invoke f a : grows (invoke f a).
Proof. intros w. exists [Call f a]. reflexivity. Qed.

Lemma grows_driver dev key f a : grows (driver dev key f a).
Proof. intros w. exists [Call f a]. reflexivity. Qed.

Lemma grows_check key : grows (check key).
Proof.
  intros w. exists []. unfold check. destruct (status w !! key) as [code|];
    [|reflexivity].
  unfold lift. destruct (Functions.assert_pico_ok code); reflexivity.
Qed.

Lemma grows_poll dev fuel ready : grows (poll dev fuel ready 0).
Proof.
  intros w. destruct (poll_issued dev fuel ready w) as (n & Hn & _).
  eexists. exact Hn.
Qed.

End Runs.

Ltac grows :=
  repeat first
    [ apply grows_ret | apply grows_raise | apply grows_lift | apply grows_invoke
    | apply grows_driver | apply grows_check | apply grows_poll
    | match goal with |- grows (if ?b then _ else _) => destruct b end
    | apply grows_bind; [|intros ?] ].

(** [x] is not among the functions of a history written out, a run of
    ready polls in its middle. *)
Ltac not_in :=
  let Hin := fresh "Hin" in
  intros Hin;
  repeat first
    [ apply elem_of_cons in Hin as [Hin|Hin]; [discriminate Hin|]
    | apply elem_of_app in Hin as [Hin|Hin];
      [apply elem_of_replicate in Hin as [Hin _]; discriminate Hin|] ];
  apply elem_of_nil in Hin; exact Hin.

Ltac functions_of_history :=
  cbn [issued];
  rewrite ?fmap_cons, ?fmap_app, ?fmap_replicate, ?fmap_cons, ?fmap_nil;
  cbn [fn].

(** ** More on the ready poll (lines 129 to 132, and 85 to 88) *)

Section ReadyPollCount.

(** The world that a poll leaves: some ready polls on top of the
    history, and a dictionary that differs under the key isReady only. *)
Lemma poll_world dev fuel : forall ready w,
  exists n st,
    snd (poll dev fuel ready 0 w)
    = World (replicate n (Call IsReady []) ++ issued w) st
    /\ (n <= fuel)%nat
    /\ (forall key, key <> "isReady" -> st !! key = status w !! key)
    /\ (n <> 0%nat ->
        st !! "isReady"
        = Some (pico_status dev (replicate n (Call IsReady []) ++ issued w)))
    /\ (n = 0%nat -> st = status w).
Proof.
  induction fuel as [|fuel IH]; intros ready w.
  - exists 0%nat, (status w). cbn [poll].
    destruct (negb _); cbn [snd replicate app]; destruct w;
      repeat split; try reflexivity; try lia; congruence.
  - destruct (Z.eq_dec ready 0) as [->|Hr].
    + rewrite poll_zero_step. cbv zeta.
      set (h := Call IsReady [] :: issued w).
      destruct (IH (Num.c_int16 (ready_flag dev h))
                  (World h (<["isReady" := pico_status dev h]> (status w))))
        as (n & st & Hw & Hn & Hkeep & Hlast & Hnone).
      exists (S n), st. cbn [issued status] in *.
      rewrite Hw. subst h. rewrite replicate_snoc_cons.
      split; [reflexivity|]. split; [lia|]. split; [|split].
      * intros key Hk. rewrite (Hkeep key Hk).
        apply lookup_insert_ne. congruence.
      * intros _. destruct n as [|n].
        -- rewrite (Hnone eq_refl). apply lookup_insert_eq.
        -- rewrite Hlast by lia. rewrite replicate_snoc_cons. reflexivity.
      * lia.
    + rewrite poll_nonzero by assumption. exists 0%nat, (status w).
      cbn [snd replicate app]. destruct w;
        repeat split; try reflexivity; try lia; congruence.
Qed.

(** What a poll that returns has done. *)
Lemma poll_returned dev fuel : forall w r w',
  poll dev fuel 0 0 w = (Returned r, w') ->
  exists n st,
    w' = World (replicate (S n) (Call IsReady []) ++ issued w) st
    /\ r = ready_after dev (issued w) n /\ r <> 0
    /\ (forall j, (j < n)%nat -> ready_after dev (issued w) j = 0)
    /\ st !! "isReady"
       = Some (pico_status dev (replicate (S n) (Call IsReady []) ++ issued w))
    /\ (forall key, key <> "isReady" -> st !! key = status w !! key).
Proof.
  induction fuel as [|fuel IH]; intros w r w' H.
  - discriminate H.
  - rewrite poll_zero_step in H. cbv zeta in H.
    destruct (Z.eq_dec (Num.c_int16 (ready_flag dev (Call IsReady [] :: issued w))) 0)
      as [E|E].
    + rewrite E in H.
      apply IH in H as (n & st & -> & -> & Hr & Hz & Hlast & Hkeep).
      cbn [issued status] in *.
      exists (S n), st. unfold ready_after in *.
      rewrite !replicate_snoc_cons in *.
      split; [reflexivity|]. split; [reflexivity|]. split; [exact Hr|].
      split; [|split].
      * intros [|j] Hj; [exact E|].
        specialize (Hz j ltac:(lia)). rewrite replicate_snoc_cons in Hz.
        exact Hz.
      * exact Hlast.
      * intros key Hk. rewrite (Hkeep key Hk).
        apply lookup_insert_ne. congruence.
    + rewrite poll_nonzero in H by exact E. injection H as <- <-.
      exists 0%nat,
        (<["isReady" := pico_status dev (Call IsReady [] :: issued w)]> (status w)).
      split; [reflexivity|]. split; [reflexivity|]. split; [exact E|].
      split; [intros j Hj; lia|]. split; [apply lookup_insert_eq|].
      intros key Hk. apply lookup_insert_ne. congruence.
Qed.

Lemma poll_first_ready dev (n : nat) : forall (w : world) (fuel : nat),
  (forall j, (j < n)%nat -> ready_after dev (issued w) j = 0) ->
  ready_after dev (issued w) n <> 0 ->
  (n < fuel)%nat ->
  fst (poll dev fuel 0 0 w) = Returned (ready_after dev (issued w) n)
  /\ issued (snd (poll dev fuel 0 0 w))
     = replicate (S n) (Call IsReady []) ++ issued w
  /\ status (snd (poll dev fuel 0 0 w)) !! "isReady"
     = Some (pico_status dev (replicate (S n) (Call IsReady []) ++ issued w)).
Proof.
  induction n as [|n IH]; intros w fuel Hz Hr Hf.
  - destruct fuel as [|fuel]; [lia|].
    rewrite poll_zero_step. cbv zeta.
    unfold ready_after in *. cbn [replicate app] in *.
    rewrite poll_nonzero by exact Hr. cbn [fst snd issued status].
    split; [reflexivity|]. split; [reflexivity|]. apply lookup_insert_eq.
  - destruct fuel as [|fuel]; [lia|].
    rewrite poll_zero_step. cbv zeta.
    assert (H0 : Num.c_int16 (ready_flag dev (Call IsReady [] :: issued w)) = 0)
      by (apply (Hz 0%nat); lia).
    rewrite H0.
    set (w1 := World (Call IsReady [] :: issued w)
                 (<["isReady" := pico_status dev (Call IsReady [] :: issued w)]>
                    (status w))).
    destruct (IH w1 fuel) as (H1 & H2 & H3).
    + intros j Hj. specialize (Hz (S j) ltac:(lia)). unfold ready_after in *.
      subst w1. cbn [issued]. rewrite replicate_snoc_cons. exact Hz.
    + unfold ready_after in *. subst w1. cbn [issued].
      rewrite replicate_snoc_cons. exact Hr.
    + lia.
    + unfold ready_after in *. subst w1. cbn [issued] in *.
      rewrite replicate_snoc_cons in H1, H2, H3.
      split; [exact H1|]. split; [exact H2|exact H3].
Qed.

Lemma poll_short_of_fuel dev (fuel : nat) : forall (w : world),
  (forall j, (j < fuel)%nat -> ready_after dev (issued w) j = 0) ->
  fst (poll dev fuel 0 0 w) = StillPolling
  /\ issued (snd (poll dev fuel 0 0 w))
     = replicate fuel (Call IsReady []) ++ issued w.
Proof.
  induction fuel as [|fuel IH]; intros w Hz.
  - split; reflexivity.
  - rewrite poll_zero_step. cbv zeta.
    assert (H0 : Num.c_int16 (ready_flag dev (Call IsReady [] :: issued w)) = 0)
      by (apply (Hz 0%nat); lia).
    rewrite H0.
    set (w1 := World (Call IsReady [] :: issued w)
                 (<["isReady" := pico_status dev (Call IsReady [] :: issued w)]>
                    (status w))).
    destruct (IH w1) as (H1 & H2).
    + intros j Hj. specialize (Hz (S j) ltac:(lia)). unfold ready_after in *.
      subst w1. cbn [issued]. rewrite replicate_snoc_cons. exact Hz.
    + subst w1. cbn [issued] in *. rewrite replicate_snoc_cons in H2.
      split; [exact H1|exact H2].
Qed.

(** The poll stops at the first ready poll. When the poll number [n]
    (from zero) is the first to set [ready] to a nonzero value, the loop
    of both scripts issues [n + 1] ready polls and no other call, leaves
    with that value, and keeps under the key isReady the status of the
    last poll only, whatever the statuses were; with [n] polls of fuel or
    less it is still polling and has spent all of it. *)
Theorem poll_stops_at_first_ready (dev : device) (n : nat) (w : world)
  (fuel : nat) :
  (forall j, (j < n)%nat -> ready_after dev (issued w) j = 0) ->
  ready_after dev (issued w) n <> 0 ->
  ((n < fuel)%nat ->
   fst (poll dev fuel 0 0 w) = Returned (ready_after dev (issued w) n)
   /\ issued (snd (poll dev fuel 0 0 w))
      = replicate (S n) (Call IsReady []) ++ issued w
   /\ status (snd (poll dev fuel 0 0 w)) !! "isReady"
      = Some (pico_status dev (replicate (S n) (Call IsReady []) ++ issued w)))
  /\ ((fuel <= n)%nat ->
      fst (poll dev fuel 0 0 w) = StillPolling
      /\ issued (snd (poll dev fuel 0 0 w))
         = replicate fuel (Call IsReady []) ++ issued w).
Proof.
  intros Hz Hr. split; intros Hf.
  - apply poll_first_ready; assumption.
  - apply poll_short_of_fuel. intros j Hj. apply Hz. lia.
Qed.

Lemma poll_stops_at_first_ready_witness :
  fst (poll Bench.demo 9 0 0 start) = Returned 1
  /\ issued (snd (poll Bench.demo 9 0 0 start))
     = [Call IsReady []; Call IsReady []].
Proof.
  destruct (proj1 (poll_stops_at_first_ready Bench.demo 1 start 9
                     ltac:(intros [|j] Hj; [reflexivity|lia])
                     ltac:(vm_compute; discriminate)) ltac:(lia))
    as (H1 & H2 & _).
  split; [exact H1|exact H2].
Defined.

End ReadyPollCount.

(** ** Every run, case by case *)

(** One asserted call; [fin] ends the case of a refused call. *)
Ltac stepf fin :=
  rewrite driver_unfold; cbv zeta; rewrite check_unfold; cbn [issued status];
  match goal with
  | |- context [?c =? 0] =>
      let E := fresh "Hcode" in destruct (Z.eqb_spec c 0) as [E|E]; [|fin]
  end.

(** The ready poll; [fin] ends the case of a run out of fuel. *)
Ltac pollf dev fuel fin :=
  rewrite bind_unfold;
  match goal with
  | |- context [poll dev fuel 0 0 ?w0] =>
      let r := fresh "ready" in
      let err := fresh "err" in
      let w1 := fresh "w" in
      let Hp := fresh "Hpoll" in
      destruct (poll dev fuel 0 0 w0) as [[r|err|] w1] eqn:Hp;
      [ apply poll_returned in Hp
          as (?polls & ?st & -> & -> & ?Hready & ?Hzero & ?Hlast & ?Hkeep)
      | exfalso; destruct (poll_issued dev fuel 0 w0) as (? & _ & Hne);
        rewrite Hp in Hne; exact (Hne err eq_refl)
      | let H := fresh "Hw" in
        destruct (poll_world dev fuel 0 w0)
          as (?polls & ?st & H & ?Hfuel & ?Hkeep & ?Hlast & ?Hnone);
        rewrite Hp in H; cbn [snd] in H; subst w1;
        cbn [issued status] in *; fin ]
  end; cbn [issued status] in *.

(** One plot of the voltages against the time axis; [fin] ends the case
    of two lengths that differ. *)
Ltac plotf fin :=
  rewrite bind_unfold, plot_fmap, length_seqZ, length_store_samples;
  match goal with
  | |- context [(?a =? ?b)%nat] =>
      first
        [ match goal with
          | H : a = b |- _ => rewrite (proj2 (Nat.eqb_eq a b) H)
          end
        | let E := fresh "Hplot" in
          destruct (Nat.eqb_spec a b) as [E|E]; [|cbn [lift raise]; fin] ]
  end;
  cbn [lift mret M_ret].

(** Lines 33 to 221 of picoscope-2206B.py, case by case; [fin] ends
    every case. *)
Ltac walk dev fuel fin :=
  unfold PicoScope2206B.acquire, start; cbv zeta;
  do 6 stepf fin;
  pollf dev fuel fin;
  rewrite bind_unfold;
  match goal with
  | |- context [?t <? 0] =>
      let E := fresh "Htotal" in
      destruct (Z.ltb_spec t 0) as [E|E]; [cbn [raise]; fin|]
  end;
  cbn [mret M_ret];
  do 4 stepf fin;
  rewrite bind_unfold, adc2mV_at_7;
  match goal with
  | |- context [?m =? 0] =>
      let E := fresh "HmaxADC" in
      destruct (Z.eqb_spec m 0) as [E|E]; [cbn [lift raise]; fin|]
  end;
  cbn [lift mret M_ret]; rewrite bind_unfold, adc2mV_at_7;
  match goal with
  | H : ?m <> 0 |- context [?m =? 0] => rewrite (proj2 (Z.eqb_neq m 0) H)
  end;
  cbn [lift mret M_ret]; rewrite bind_unfold;
  unfold PicoScope2206B.makeTimeAxis, linspace;
  match goal with
  | |- context [?t <? 0] =>
      let E := fresh "Hcount" in
      destruct (Z.ltb_spec t 0) as [E|E]; [cbn [lift raise]; fin|]
  end;
  cbn [lift mret M_ret];
  plotf fin; plotf fin;
  do 2 stepf fin;
  fin.

Ltac in_list := solve [repeat constructor].

(** A lookup in the dictionary of a run written out. *)
Ltac lookup_status :=
  repeat first
    [ rewrite lookup_insert_eq
    | rewrite lookup_empty
    | rewrite lookup_insert_ne by discriminate
    | match goal with
      | Hk : forall key, key <> "isReady" -> ?st !! key = _
        |- context [?st !! _] => rewrite Hk by discriminate
      end ];
  first [ reflexivity | assumption | f_equal; assumption ].

(** The same in a hypothesis. *)
Ltac lookup_in H :=
  repeat first
    [ rewrite lookup_insert_eq in H
    | rewrite lookup_empty in H
    | rewrite lookup_insert_ne in H by discriminate
    | match type of H with
      | context [?st !! _] =>
          match goal with
          | Hk : forall key, key <> "isReady" -> st !! key = _ |- _ =>
              rewrite Hk in H by discriminate
          end
      end ].

(** The case of an asserted key that holds a nonzero status. *)
Ltac fin_refused :=
  let H := fresh in
  intros H; injection H as <- <-;
  let Hin := fresh "Hin" in
  let Hst := fresh "Hst" in
  let Hne := fresh "Hne" in
  intros Hin Hst Hne; cbn [status issued] in Hst |- *;
  unfold asserted in Hin;
  repeat (apply elem_of_cons in Hin as [->|Hin]);
  [ .. | apply elem_of_nil in Hin; destruct Hin ];
  lookup_in Hst;
  first
    [ discriminate Hst
    | exfalso; injection Hst as Hst; apply Hne; rewrite <- Hst; assumption
    | injection Hst as <-;
      split; [reflexivity|]; split; [reflexivity|]; split; [reflexivity|];
      split; [|split];
      [ intros ?Hk1 ?Hk2;
        first [ exfalso; first [apply Hk1; reflexivity | apply Hk2; reflexivity]
              | functions_of_history; not_in ]
      | intros ?Hk1;
        first [ exfalso; apply Hk1; reflexivity
              | functions_of_history; not_in ]
      | intros ?Hk; first [discriminate Hk | reflexivity] ] ].

Section Runs2206B.

Import PicoScope2206B.

Lemma acquire_refused (c : config) dev fuel o w key code :
  acquire dev fuel c start = (o, w) ->
  key ∈ asserted -> status w !! key = Some code -> code <> 0 ->
  o = Raised (DeviceError code)
  /\ pico_status dev (issued w) = code
  /\ fn <$> head (issued w) = operation key
  /\ (key <> "stop" -> key <> "close" -> Stop ∉ fn <$> issued w)
  /\ (key <> "close" -> CloseUnit ∉ fn <$> issued w)
  /\ (key = "setChA" ->
      issued w = [Call SetChannel [0; 1; 1; 7; 0]; Call OpenUnit []]).
Proof. walk dev fuel fin_refused. Qed.

(** C1, as stated, fails: when the unit refuses the set-up of channel A
    with the status 13, the script ends with the device error of that
    status and issues no trigger set-up, but neither stop nor close is
    issued either: the unit is left open. The error carries the status
    only: the helper was not told which call it checks. *)
Lemma setChA_failure_leaves_unit_open :
  fst (main Bench.no_log (Bench.refusing Bench.is_setChA 13 Bench.demo) 5)
  = Raised (DeviceError 13)
  /\ issued (snd (main Bench.no_log (Bench.refusing Bench.is_setChA 13 Bench.demo) 5))
     = [Call SetChannel [0; 1; 1; 7; 0]; Call OpenUnit []]
  /\ ~ (Stop ∈ fn <$> issued (snd (main Bench.no_log (Bench.refusing Bench.is_setChA 13 Bench.demo) 5))
        /\ CloseUnit ∈ fn <$> issued (snd (main Bench.no_log (Bench.refusing Bench.is_setChA 13 Bench.demo) 5))).
Proof.
  assert (H : issued (snd (main Bench.no_log (Bench.refusing Bench.is_setChA 13 Bench.demo) 5))
              = [Call SetChannel [0; 1; 1; 7; 0]; Call OpenUnit []])
    by (vm_compute; reflexivity).
  split; [vm_compute; reflexivity|]. split; [exact H|].
  rewrite H. intros [Hs _]. revert Hs. functions_of_history. not_in.
Qed.

(** C1, amended. In every run of the 2206B script, whenever one of the
    asserted statuses is not success (the key of the dictionary holds a
    nonzero code), the run ends with the device error carrying that code;
    the error does not name the operation, which is the one of the key.
    The failing call is the newest of the history, so that no later step
    was issued; and unless the failing operation is stop or close itself,
    neither stop nor close is ever issued. When the failing operation is
    the set-up of channel A, the history is the opening of the unit and
    that set-up. *)
Theorem abort_skips_release (log : float -> option float)
  (SAMPLING_FREQUENCY ACQUISITION_TIME : float) (dev : device) (fuel : nat)
  (o : outcome capture) (w : world) (key : string) (code : Z) :
  run log SAMPLING_FREQUENCY ACQUISITION_TIME dev fuel = (o, w) ->
  key ∈ asserted -> status w !! key = Some code -> code <> 0 ->
  o = Raised (DeviceError code)
  /\ pico_status dev (issued w) = code
  /\ fn <$> head (issued w) = operation key
  /\ (key <> "stop" -> key <> "close" -> Stop ∉ fn <$> issued w)
  /\ (key <> "close" -> CloseUnit ∉ fn <$> issued w)
  /\ (key = "setChA" ->
      issued w = [Call SetChannel [0; 1; 1; 7; 0]; Call OpenUnit []]).
Proof.
  unfold run.
  destruct (configure log SAMPLING_FREQUENCY ACQUISITION_TIME) as [e|c].
  - intros [= <- <-] _ H. unfold start in H. cbn [status] in H.
    rewrite lookup_empty in H. discriminate H.
  - apply acquire_refused.
Qed.

Lemma abort_skips_release_witness :
  fst (run Bench.no_log 500000 1 (Bench.refusing Bench.is_setChA 13 Bench.demo) 5)
  = Raised (DeviceError 13)
  /\ (Stop ∉ fn <$> issued (snd (run Bench.no_log 500000 1
                                    (Bench.refusing Bench.is_setChA 13 Bench.demo) 5)))
  /\ (CloseUnit ∉ fn <$> issued (snd (run Bench.no_log 500000 1
                                         (Bench.refusing Bench.is_setChA 13 Bench.demo) 5))).
Proof.
  destruct (abort_skips_release Bench.no_log 500000 1
              (Bench.refusing Bench.is_setChA 13 Bench.demo) 5 _ _ "setChA" 13
              (surjective_pairing _))
    as (Ho & _ & _ & Hs & Hc & _).
  - unfold asserted. in_list.
  - vm_compute. reflexivity.
  - discriminate.
  - split; [exact Ho|]. split; [apply Hs; discriminate|apply Hc; discriminate].
Defined.

(** *** No capacity is checked *)

Lemma acquire_first_call dev fuel c :
  exists later,
    issued (snd (acquire dev fuel c start)) = later ++ [Call OpenUnit []].
Proof.
  unfold acquire, start. cbv zeta. rewrite driver_unfold. cbv zeta.
  match goal with |- context [snd (?k ?w)] =>
    assert (Hg : grows k) by grows; destruct (Hg w) as [l Hl] end.
  exists l. exact Hl.
Qed.

Lemma acquire_setup dev fuel c :
  always_ok dev -> setup c `suffix_of` issued (snd (acquire dev fuel c start)).
Proof.
  intros Hok. unfold acquire, start. cbv zeta.
  do 6 (rewrite driver_unfold; cbv zeta; rewrite check_unfold, Hok;
        cbn [issued status Z.eqb]).
  match goal with |- context [snd (?k ?w)] =>
    assert (Hg : grows k) by grows; destruct (Hg w) as [l Hl] end.
  exists l. exact Hl.
Qed.

(** Against a unit that accepts every call, reports ready at some poll,
    reports a nonzero maximum count and returns as many samples as were
    requested, the run returns, whatever the number of samples. *)
Lemma acquire_returns dev c :
  always_ok dev ->
  (exists n, ready_after dev (setup c) n <> 0) ->
  0 <= cfg_totalSamples c ->
  (forall h, Num.c_int16 (maximumValue dev h) <> 0) ->
  (forall h, Num.c_int32 (noOfSamples dev h) = cfg_totalSamples c) ->
  exists fuel n out w,
    acquire dev fuel c start = (Returned out, w)
    /\ issued w = calls_2206B c n
    /\ length (adc2mVChAMax out) = Z.to_nat (cfg_totalSamples c)
    /\ length (adc2mVChBMax out) = Z.to_nat (cfg_totalSamples c)
    /\ length (timeAxis out) = Z.to_nat (cfg_totalSamples c).
Proof.
  intros Hok [n Hr] Htot Hmax Hnum.
  exists (S n). unfold acquire, start. cbv zeta.
  do 6 (rewrite driver_unfold; cbv zeta; rewrite check_unfold, Hok;
        cbn [issued status Z.eqb]).
  rewrite bind_unfold.
  match goal with |- context [poll dev (S n) 0 0 ?w0] =>
    destruct (poll_ready_returns dev n w0 Hr) as (r & w1 & Hp & _);
    destruct (poll_issued dev (S n) 0 w0) as (k & Hk & _);
    rewrite Hp in Hk |- * end.
  cbn [snd issued] in Hk. destruct w1 as [h1 st1]. cbn [issued] in Hk. subst h1.
  rewrite bind_unfold.
  destruct (Z.ltb_spec (cfg_totalSamples c) 0); [lia|].
  cbn [mret M_ret].
  do 4 (rewrite driver_unfold; cbv zeta; rewrite check_unfold, Hok;
        cbn [issued status Z.eqb]).
  rewrite bind_unfold, adc2mV_at_7, (proj2 (Z.eqb_neq _ 0) (Hmax _)).
  cbn [lift mret M_ret].
  rewrite bind_unfold, adc2mV_at_7, (proj2 (Z.eqb_neq _ 0) (Hmax _)).
  cbn [lift mret M_ret]. rewrite bind_unfold.
  unfold makeTimeAxis, linspace. rewrite Hnum.
  destruct (Z.ltb_spec (cfg_totalSamples c) 0); [lia|].
  cbn [lift mret M_ret].
  do 2 (rewrite bind_unfold, plot_fmap, length_seqZ, length_store_samples,
          Nat.eqb_refl; cbn [lift mret M_ret]).
  do 2 (rewrite driver_unfold; cbv zeta; rewrite check_unfold, Hok;
        cbn [issued status Z.eqb]).
  eexists k, _, _. split; [reflexivity|].
  cbn [adc2mVChAMax adc2mVChBMax timeAxis issued]. split; [|split; [|split]].
  - reflexivity.
  - rewrite length_fmap. apply length_store_samples.
  - rewrite length_fmap. apply length_store_samples.
  - rewrite length_fmap. apply length_seqZ.
Qed.

(** C5, as stated, fails: 100 MHz for one second is 100000000 samples,
    more than the 32 MS of the unit, and the script opens the unit, sets
    it up, hands the count to the driver and starts the capture. *)
Lemma oversized_request_reaches_the_unit :
  totalSamples 100000000 1 = inr 100000000
  /\ bufferMemory < 100000000
  /\ fst (run Bench.no_log 100000000 1 (Bench.asleep Bench.demo) 0) = StillPolling
  /\ issued (snd (run Bench.no_log 100000000 1 (Bench.asleep Bench.demo) 0))
     = [Call RunBlock [50000000; 50000000; 3; 0; 0];
        Call GetTimebase2 [3; 100000000; 0; 0];
        Call SetSimpleTrigger [1; 0; 1024; 2; 0; 1000];
        Call SetChannel [1; 1; 1; 7; 0];
        Call SetChannel [0; 1; 1; 7; 0];
        Call OpenUnit []]
  /\ issued (snd (run Bench.no_log 100000000 1 (Bench.asleep Bench.demo) 0)) <> [].
Proof.
  assert (H : issued (snd (run Bench.no_log 100000000 1 (Bench.asleep Bench.demo) 0))
     = [Call RunBlock [50000000; 50000000; 3; 0; 0];
        Call GetTimebase2 [3; 100000000; 0; 0];
        Call SetSimpleTrigger [1; 0; 1024; 2; 0; 1000];
        Call SetChannel [1; 1; 1; 7; 0];
        Call SetChannel [0; 1; 1; 7; 0];
        Call OpenUnit []]) by (vm_compute; reflexivity).
  split; [vm_compute; reflexivity|]. split; [reflexivity|].
  split; [vm_compute; reflexivity|].
  split; [exact H|]. intros E. rewrite H in E. discriminate E.
Qed.

(** C5, amended. The script compares [totalSamples] with no capacity and
    leaves the matter to the unit. For every request that the
    configuration stage accepts, whatever the number of samples: the unit
    is opened, and that call is the first of the history; when the unit
    accepts every call, the whole set-up is issued, the number of samples
    handed to the timebase query and, split in two, to the block start;
    and when moreover the unit reports ready at some poll, reports a
    nonzero maximum count and returns as many samples as were requested
    (not a negative number), the run returns after the whole sequence of
    calls. *)
Theorem unit_opened_whatever_totalSamples (log : float -> option float)
  (SAMPLING_FREQUENCY ACQUISITION_TIME : float) (c : config) (dev : device) :
  configure log SAMPLING_FREQUENCY ACQUISITION_TIME = inr c ->
  (forall fuel, exists later,
      issued (snd (run log SAMPLING_FREQUENCY ACQUISITION_TIME dev fuel))
      = later ++ [Call OpenUnit []])
  /\ (always_ok dev ->
      (forall fuel,
          setup c `suffix_of`
            issued (snd (run log SAMPLING_FREQUENCY ACQUISITION_TIME dev fuel)))
      /\ ((exists n, ready_after dev (setup c) n <> 0) ->
          0 <= cfg_totalSamples c ->
          (forall h, Num.c_int16 (maximumValue dev h) <> 0) ->
          (forall h, Num.c_int32 (noOfSamples dev h) = cfg_totalSamples c) ->
          exists fuel n out w,
            run log SAMPLING_FREQUENCY ACQUISITION_TIME dev fuel
            = (Returned out, w)
            /\ issued w = calls_2206B c n)).
Proof.
  intros H. unfold run. rewrite H. split; [|intros Hok; split].
  - intros fuel. apply acquire_first_call.
  - intros fuel. apply acquire_setup. exact Hok.
  - intros Hr Htot Hmax Hnum.
    destruct (acquire_returns dev c Hok Hr Htot Hmax Hnum)
      as (fuel & n & out & w & Hrun & Hh & _).
    exists fuel, n, out, w. split; assumption.
Qed.

Lemma unit_opened_whatever_totalSamples_witness :
  bufferMemory < 100000000
  /\ exists fuel n out w,
      run Bench.no_log 100000000 1 (Bench.returning 100000000 Bench.demo) fuel
      = (Returned out, w)
      /\ issued w = calls_2206B (Config 3 62500000 100000000) n.
Proof.
  split; [reflexivity|].
  apply (unit_opened_whatever_totalSamples Bench.no_log 100000000 1
           (Config 3 62500000 100000000)
           (Bench.returning 100000000 Bench.demo)).
  - vm_compute. reflexivity.
  - intros h. reflexivity.
  - exists 1%nat. vm_compute. discriminate.
  - cbn. lia.
  - intros h. vm_compute. discriminate.
  - intros h. reflexivity.
Defined.



End Runs2206B.

(** ** The ready poll in both scripts *)

Section ReadyPoll.

(** C9. In both scripts the poll compares [ready] with a [check] that
    stays zero. Entered from any history, it ends if and only if some
    ready poll sets [ready] to a nonzero value. It has no bound of its
    own: against a unit that never reports ready, whatever the fuel, the
    ps6000 script is still polling with all the fuel spent on ready
    polls, and so is the 2206B script when the unit accepts its set-up. *)
Theorem ready_poll_unbounded :
  (forall (dev : device) (w : world),
      (exists fuel ready w', poll dev fuel 0 0 w = (Returned ready, w'))
      <-> (exists n, ready_after dev (issued w) n <> 0))
  /\ (forall dev : device, never_ready dev -> forall fuel : nat,
        (fst (PS6000BlockExample.run dev fuel) = StillPolling
         /\ polls (issued (snd (PS6000BlockExample.run dev fuel))) = fuel)
        /\ (forall (log : float -> option float) (f T : float)
                   (c : PicoScope2206B.config),
              PicoScope2206B.configure log f T = inr c ->
              always_ok dev ->
              fst (PicoScope2206B.run log f T dev fuel) = StillPolling
              /\ polls (issued (snd (PicoScope2206B.run log f T dev fuel))) = fuel)).
Proof.
  split.
  - intros dev w. split.
    + intros (fuel & r & w' & H). exact (poll_returns_ready dev fuel w r w' H).
    + intros (n & H). exists (S n).
      destruct (poll_ready_returns dev n w H) as (r & w' & Hp & _).
      exists r, w'. exact Hp.
  - intros dev Hn fuel. split.
    + unfold PS6000BlockExample.run, start. cbv zeta.
      do 6 (rewrite driver_unfold; cbv zeta; cbn [issued status]).
      rewrite bind_unfold.
      match goal with |- context [poll dev fuel 0 0 ?w0] =>
        destruct (poll_asleep dev Hn fuel w0) as [H1 H2];
        destruct (poll dev fuel 0 0 w0) as [[r|err|] w1] end;
        cbn [fst snd] in *; try discriminate H1.
      split; [reflexivity|]. rewrite H2. cbn [issued].
      rewrite polls_replicate.
      match goal with |- (_ + ?x)%nat = _ => change x with 0%nat end. lia.
    + intros log f T c Hc Hok. unfold PicoScope2206B.run. rewrite Hc.
      unfold PicoScope2206B.acquire, start. cbv zeta.
      do 6 (rewrite driver_unfold; cbv zeta; rewrite check_unfold, Hok;
            cbn [issued status Z.eqb]).
      rewrite bind_unfold.
      match goal with |- context [poll dev fuel 0 0 ?w0] =>
        destruct (poll_asleep dev Hn fuel w0) as [H1 H2];
        destruct (poll dev fuel 0 0 w0) as [[r|err|] w1] end;
        cbn [fst snd] in *; try discriminate H1.
      split; [reflexivity|]. rewrite H2. cbn [issued].
      rewrite polls_replicate.
      match goal with |- (_ + ?x)%nat = _ => change x with 0%nat end. lia.
Qed.

Lemma ready_poll_unbounded_witness :
  (exists fuel ready w', poll Bench.demo fuel 0 0 start = (Returned ready, w'))
  /\ fst (PS6000BlockExample.run (Bench.asleep Bench.demo) 40) = StillPolling
  /\ polls (issued (snd (PS6000BlockExample.run (Bench.asleep Bench.demo) 40)))
     = 40%nat
  /\ fst (PicoScope2206B.main Bench.no_log (Bench.asleep Bench.demo) 40)
     = StillPolling.
Proof.
  pose proof (proj2 ready_poll_unbounded (Bench.asleep Bench.demo)
                (fun h => eq_refl) 40%nat) as [[H1 H2] H3].
  pose proof (H3 Bench.no_log 500000%float 1%float
                (PicoScope2206B.Config 127 500000 500000)
                ltac:(vm_compute; reflexivity) (fun h => eq_refl)) as [H4 _].
  split; [|split; [|split]].
  - apply (proj1 ready_poll_unbounded Bench.demo start).
    exists 1%nat. vm_compute. discriminate.
  - exact H1.
  - exact H2.
  - exact H4.
Defined.

End ReadyPoll.

(** ** Every run of picoscope-2206B.py *)


(** One of the ways out of a run is the refusal of the call stored under
    a key: refuted when that key holds no such status. *)
Ltac refute_ways Hor :=
  repeat (destruct Hor as [Hor|Hor]);
  first
    [ destruct Hor as [? Hor]; discriminate Hor
    | let Ho := fresh in
      let Hst := fresh in
      destruct Hor as (? & Ho & Hst);
      first [ discriminate Ho
            | cbn [status] in Hst; lookup_in Hst; discriminate Hst ] ].

Ltac refused_at_key :=
  eexists; split; [reflexivity|cbn [status]; lookup_status].

Ltac fin_release :=
  let H := fresh in
  intros H; first [discriminate H | injection H as <- <-];
  split; (split;
  [ let Hin := fresh "Hmem" in
    intros Hin;
    first [ exfalso; revert Hin; functions_of_history; not_in
          | left; eexists; reflexivity
          | right; left; refused_at_key
          | right; right; refused_at_key
          | right; refused_at_key ]
  | let Hor := fresh "Hor" in
    intros Hor;
    first [ solve [functions_of_history; repeat constructor]
          | exfalso; refute_ways Hor ] ]).

Ltac is_suffix :=
  unfold calls_2206B, PicoScope2206B.setup; cbn [app replicate issued];
  solve [repeat first [reflexivity | apply suffix_cons_r]].

Ltac complete_or_not :=
  split;
  [ let Hc := fresh "Hc" in
    intros Hc;
    first
      [ left; eexists; reflexivity
      | right; refused_at_key
      | exfalso; apply (f_equal length) in Hc; revert Hc;
        unfold calls_2206B, PicoScope2206B.setup;
        cbn [app replicate issued length];
        rewrite ?length_app, ?length_replicate; cbn [length]; lia ]
  | let Hor := fresh "Hor" in
    intros Hor;
    first [ reflexivity | exfalso; refute_ways Hor ] ].

Ltac fin_order :=
  let H := fresh in
  intros H; first [discriminate H | injection H as <- <-];
  first
    [ match goal with
      | polls : nat |- _ =>
          first [ exists polls; split; [is_suffix|complete_or_not]
                | exists (S polls); split; [is_suffix|complete_or_not] ]
      end
    | exists 0%nat; split; [is_suffix|complete_or_not] ].

Ltac fin_status :=
  let H := fresh in
  intros H;
  first
    [ discriminate H
    | injection H as <- <-;
      cbn [status issued drop];
      unfold asserted; split;
      [ repeat (apply Forall_cons; split; [lookup_status|]);
        apply Forall_nil; exact I
      | repeat rewrite lookup_insert_ne by discriminate;
        match goal with Hl : ?st !! "isReady" = _ |- _ => exact Hl end ] ].

Ltac fin_shape :=
  let H := fresh in
  intros H;
  first
    [ discriminate H
    | injection H as <- <-;
      cbn [adc2mVChAMax adc2mVChBMax timeAxis issued drop];
      rewrite !length_fmap, !length_store_samples, length_seqZ;
      split; [assumption|]; split; [assumption|];
      split; [apply Z2Nat.inj; assumption|];
      split; [reflexivity|]; split; [reflexivity|];
      split; [reflexivity|]; split; [reflexivity|]; assumption ].

Section EveryRun2206B.

Import PicoScope2206B.




Lemma acquire_release (c : config) dev fuel o w :
  acquire dev fuel c start = (o, w) ->
  (CloseUnit ∈ fn <$> issued w
   <-> (exists out, o = Returned out)
       \/ (exists code,
              o = Raised (DeviceError code) /\ status w !! "close" = Some code))
  /\ (Stop ∈ fn <$> issued w
      <-> (exists out, o = Returned out)
          \/ (exists code,
                 o = Raised (DeviceError code)
                 /\ status w !! "close" = Some code)
          \/ (exists code,
                 o = Raised (DeviceError code)
                 /\ status w !! "stop" = Some code)).
Proof. walk dev fuel fin_release. Qed.

(** When the 2206B script closes and stops the unit. In every run,
    whatever its end, the unit is closed exactly when the run returns or
    the close call itself is refused (the run ends with the device error
    of the status stored under close), and it is stopped exactly when
    moreover the stop call may be the refused one: any other end (an
    exception of any kind, or a poll that never ends) leaves the unit
    running and open. *)
Theorem unit_released_only_at_the_end (log : float -> option float)
  (f T : float) (dev : device) (fuel : nat) (o : outcome capture) (w : world) :
  run log f T dev fuel = (o, w) ->
  (CloseUnit ∈ fn <$> issued w
   <-> (exists out, o = Returned out)
       \/ (exists code,
              o = Raised (DeviceError code) /\ status w !! "close" = Some code))
  /\ (Stop ∈ fn <$> issued w
      <-> (exists out, o = Returned out)
          \/ (exists code,
                 o = Raised (DeviceError code)
                 /\ status w !! "close" = Some code)
          \/ (exists code,
                 o = Raised (DeviceError code)
                 /\ status w !! "stop" = Some code)).
Proof.
  unfold run. destruct (configure log f T) as [e0|c] eqn:Hc.
  - intros [= <- <-]. unfold start. cbn [issued status fmap list_fmap].
    split; (split; [intros Hin; apply elem_of_nil in Hin; contradiction|]).
    + intros [[? H]|(? & _ & H)]; [discriminate H|].
      rewrite lookup_empty in H. discriminate H.
    + intros [[? H]|[(? & _ & H)|(? & _ & H)]]; [discriminate H| |];
        rewrite lookup_empty in H; discriminate H.
  - apply acquire_release.
Qed.

Lemma unit_released_only_at_the_end_witness :
  ~ (CloseUnit ∈ fn <$> issued (snd (run Bench.no_log 1 3
        (Bench.scope 2000 2 [0; 16256; 32512] [1; -1; 40000] 0) 5))).
Proof.
  destruct (run Bench.no_log 1 3
              (Bench.scope 2000 2 [0; 16256; 32512] [1; -1; 40000] 0) 5)
    as [o w] eqn:E.
  destruct (unit_released_only_at_the_end _ _ _ _ _ o w E) as [[Hc _] _].
  cbn [snd]. intros Hin. apply Hc in Hin.
  vm_compute in E. injection E as <- _.
  destruct Hin as [[? H]|(? & H & _)]; discriminate H.
Defined.

Lemma acquire_order (c : config) dev fuel o w :
  acquire dev fuel c start = (o, w) ->
  exists n,
    issued w `suffix_of` calls_2206B c n
    /\ (issued w = calls_2206B c n
        <-> (exists out, o = Returned out)
            \/ (exists code,
                   o = Raised (DeviceError code)
                   /\ status w !! "close" = Some code)).
Proof. walk dev fuel fin_order. Qed.

(** The calls of the 2206B script and their arguments. The history of
    every run that the configuration stage lets start, whatever its end,
    is an initial part of one list of calls (here its newest-first
    suffix): open, channel A, channel B, trigger, timebase, block start,
    some ready polls, the two buffers, values, maximum count, stop,
    close. The samples before and after the trigger that the block start
    is given add up to the number of samples given to the timebase query
    and to both buffers. The history is the whole list exactly when the
    run returns or the close call is refused. *)
Theorem history_is_a_prefix_of_the_script (log : float -> option float)
  (f T : float) (c : config) (dev : device) (fuel : nat)
  (o : outcome capture) (w : world) :
  configure log f T = inr c ->
  run log f T dev fuel = (o, w) ->
  exists n,
    issued w `suffix_of` calls_2206B c n
    /\ (issued w = calls_2206B c n
        <-> (exists out, o = Returned out)
            \/ (exists code,
                   o = Raised (DeviceError code)
                   /\ status w !! "close" = Some code)).
Proof.
  intros Hc. unfold run. rewrite Hc. apply acquire_order.
Qed.

Lemma history_is_a_prefix_of_the_script_witness :
  exists n,
    issued (snd (run Bench.no_log 1 3
                   (Bench.refusing Bench.is_setChA 13 Bench.demo) 5))
    `suffix_of` calls_2206B (Config 62500002 1 3) n.
Proof.
  destruct (run Bench.no_log 1 3 (Bench.refusing Bench.is_setChA 13 Bench.demo) 5)
    as [o w] eqn:E.
  destruct (history_is_a_prefix_of_the_script Bench.no_log 1 3
              (Config 62500002 1 3) _ _ o w
              ltac:(vm_compute; reflexivity) E)
    as (n & Hs & _).
  exists n. exact Hs.
Defined.

Lemma acquire_status (c : config) dev fuel out w :
  acquire dev fuel c start = (Returned out, w) ->
  Forall (fun key => status w !! key = Some 0) asserted
  /\ status w !! "isReady" = Some (pico_status dev (drop 6 (issued w))).
Proof. walk dev fuel fin_status. Qed.

(** The dictionary that the 2206B script prints. In a run that returns,
    each of the twelve asserted keys holds the success status 0, and the
    key isReady holds the status that the last ready poll returned,
    whatever it is: the statuses of the earlier polls are overwritten. *)
Theorem status_of_a_returned_run (log : float -> option float) (f T : float)
  (dev : device) (fuel : nat) (out : capture) (w : world) :
  run log f T dev fuel = (Returned out, w) ->
  Forall (fun key => status w !! key = Some 0) asserted
  /\ status w !! "isReady" = Some (pico_status dev (drop 6 (issued w))).
Proof.
  unfold run. destruct (configure log f T) as [e0|c]; [discriminate|].
  apply acquire_status.
Qed.

Lemma status_of_a_returned_run_witness :
  status (snd (run Bench.no_log 1 3 Bench.demo 5)) !! "close" = Some 0
  /\ status (snd (run Bench.no_log 1 3 Bench.demo 5)) !! "isReady" = Some 0.
Proof.
  destruct (run Bench.no_log 1 3 Bench.demo 5) as [[out| |] w] eqn:E;
    [|vm_compute in E; discriminate E..].
  destruct (status_of_a_returned_run Bench.no_log 1 3 Bench.demo 5 out w E)
    as [Ha Hr].
  cbn [snd]. split.
  - rewrite Forall_forall in Ha. apply Ha. unfold asserted. in_list.
  - rewrite Hr. reflexivity.
Defined.

Lemma acquire_shape (c : config) dev fuel out w :
  acquire dev fuel c start = (Returned out, w) ->
  let total := cfg_totalSamples c in
  let maxADC := Num.c_int16 (maximumValue dev (drop 2 (issued w))) in
  let returned := Num.c_int32 (noOfSamples dev (drop 3 (issued w))) in
  0 <= total
  /\ maxADC <> 0
  /\ returned = total
  /\ adc2mVChAMax out
     = (fun x => Functions.convert x 2000 maxADC)
         <$> store_samples (Z.to_nat total) (samples dev (drop 3 (issued w)) 0)
  /\ adc2mVChBMax out
     = (fun x => Functions.convert x 2000 maxADC)
         <$> store_samples (Z.to_nat total) (samples dev (drop 3 (issued w)) 1)
  /\ length (adc2mVChAMax out) = Z.to_nat total
  /\ length (adc2mVChBMax out) = Z.to_nat total
  /\ length (timeAxis out) = Z.to_nat total.
Proof. cbv zeta. walk dev fuel fin_shape. Qed.

(** What a run of the 2206B script returns. The number of samples was
    not negative, the maximum count that the unit reported was not zero,
    and the unit returned as many samples as were requested (any other
    count ends the run at the plot); each channel holds one voltage per
    requested sample, the count of its buffer (zero where the driver
    wrote nothing) scaled by the 2 V range over that maximum count; and
    the time axis is as long as the voltages. *)
Theorem shape_of_a_returned_run (log : float -> option float) (f T : float)
  (dev : device) (fuel : nat) (out : capture) (w : world) :
  run log f T dev fuel = (Returned out, w) ->
  exists total,
    totalSamples f T = inr total
    /\ let maxADC := Num.c_int16 (maximumValue dev (drop 2 (issued w))) in
       let returned := Num.c_int32 (noOfSamples dev (drop 3 (issued w))) in
       0 <= total
       /\ maxADC <> 0
       /\ returned = total
       /\ adc2mVChAMax out
          = (fun x => Functions.convert x 2000 maxADC)
              <$> store_samples (Z.to_nat total)
                    (samples dev (drop 3 (issued w)) 0)
       /\ adc2mVChBMax out
          = (fun x => Functions.convert x 2000 maxADC)
              <$> store_samples (Z.to_nat total)
                    (samples dev (drop 3 (issued w)) 1)
       /\ length (adc2mVChAMax out) = Z.to_nat total
       /\ length (adc2mVChBMax out) = Z.to_nat total
       /\ length (timeAxis out) = Z.to_nat total.
Proof.
  unfold run. destruct (configure log f T) as [e0|c] eqn:Hc; [discriminate|].
  intros H. exists (cfg_totalSamples c).
  split; [exact (configure_totalSamples _ _ _ _ Hc)|].
  exact (acquire_shape c dev fuel out w H).
Qed.

Lemma shape_of_a_returned_run_witness :
  exists out w,
    run Bench.no_log 1 3 Bench.demo 5 = (Returned out, w)
    /\ length (adc2mVChAMax out) = Z.to_nat 3
    /\ length (timeAxis out) = Z.to_nat 3.
Proof.
  destruct (run Bench.no_log 1 3 Bench.demo 5) as [[out| |] w] eqn:E;
    [|vm_compute in E; discriminate E..].
  exists out, w. split; [reflexivity|].
  destruct (shape_of_a_returned_run Bench.no_log 1 3 Bench.demo 5 out w E)
    as (total & Ht & H).
  cbv zeta in H. destruct H as (_ & _ & _ & _ & _ & Ha & _ & Hx).
  assert (total = 3) as -> by (vm_compute in Ht; congruence).
  split; [exact Ha|exact Hx].
Defined.

(** The order of the device-facing steps of the 2206B script. Against a
    unit that accepts every call, reports ready at some poll, reports a
    nonzero maximum count and returns as many samples as were requested
    (not a negative number), some fuel makes the run return; its history
    is, newest first: close, stop, maximum count, values, the two
    buffers, the ready polls, block start, timebase, trigger, the two
    channels, open; and it holds one voltage per requested sample and
    channel. *)
Theorem capture_order (log : float -> option float) (f T : float)
  (c : config) (dev : device) :
  configure log f T = inr c ->
  always_ok dev ->
  (exists n, ready_after dev (setup c) n <> 0) ->
  0 <= cfg_totalSamples c ->
  (forall h, Num.c_int16 (maximumValue dev h) <> 0) ->
  (forall h, Num.c_int32 (noOfSamples dev h) = cfg_totalSamples c) ->
  exists fuel n out w,
    run log f T dev fuel = (Returned out, w)
    /\ fn <$> issued w
       = [CloseUnit; Stop; MaximumValue; GetValues; SetDataBuffers; SetDataBuffers]
         ++ replicate n IsReady
         ++ [RunBlock; GetTimebase2; SetSimpleTrigger; SetChannel; SetChannel;
             OpenUnit]
    /\ length (adc2mVChAMax out) = Z.to_nat (cfg_totalSamples c)
    /\ length (adc2mVChBMax out) = Z.to_nat (cfg_totalSamples c).
Proof.
  intros Hc Hok Hr Htot Hmax Hnum. unfold run. rewrite Hc.
  destruct (acquire_returns dev c Hok Hr Htot Hmax Hnum)
    as (fuel & n & out & w & Hrun & Hh & Ha & Hb & _).
  exists fuel, n, out, w. split; [exact Hrun|]. split; [|split; assumption].
  rewrite Hh. unfold calls_2206B, setup. functions_of_history. reflexivity.
Qed.

Lemma capture_order_witness :
  exists fuel n out w,
    run Bench.no_log 1 3 Bench.demo fuel = (Returned out, w)
    /\ fn <$> issued w
       = [CloseUnit; Stop; MaximumValue; GetValues; SetDataBuffers; SetDataBuffers]
         ++ replicate n IsReady
         ++ [RunBlock; GetTimebase2; SetSimpleTrigger; SetChannel; SetChannel;
             OpenUnit]
    /\ length (adc2mVChAMax out) = 3%nat
    /\ length (adc2mVChBMax out) = 3%nat.
Proof.
  apply (capture_order Bench.no_log 1 3 (Config 62500002 1 3) Bench.demo).
  - vm_compute. reflexivity.
  - intros h. reflexivity.
  - exists 1%nat. vm_compute. discriminate.
  - cbn. lia.
  - intros h. vm_compute. discriminate.
  - intros h. reflexivity.
Defined.

End EveryRun2206B.

(** ** Every run of ps6000BlockExample.py *)

(** Lines 14 to 152 of ps6000BlockExample.py, case by case; [fin] ends
    every case. *)
Ltac walk6000 dev fuel fin :=
  unfold PS6000BlockExample.run, start; cbv zeta;
  do 6 (rewrite driver_unfold; cbv zeta; cbn [issued status]);
  pollf dev fuel fin;
  do 3 (rewrite driver_unfold; cbv zeta; cbn [issued status]);
  change (Num.c_int16 32512) with 32512;
  rewrite bind_unfold, adc2mV_at_7; change (32512 =? 0) with false;
  cbn [lift mret M_ret]; rewrite bind_unfold, adc2mV_at_7;
  change (32512 =? 0) with false;
  cbn [lift mret M_ret]; rewrite bind_unfold;
  unfold PS6000BlockExample.makeTime, linspace;
  match goal with
  | |- context [?t <? 0] =>
      let E := fresh "Hcount" in
      destruct (Z.ltb_spec t 0) as [E|E]; [cbn [lift raise]; fin|]
  end;
  cbn [lift mret M_ret];
  plotf fin; plotf fin;
  rewrite bind_unfold; cbn [invoke issued status mret M_ret];
  fin.

Ltac fin_scaling :=
  let H := fresh in
  intros H;
  first
    [ discriminate H
    | injection H as <- <-; cbn [adc2mVChAMax adc2mVChBMax issued tail];
      split; [reflexivity|]; split; [reflexivity|];
      functions_of_history; not_in ].

Ltac fin_asserts :=
  let H := fresh in
  intros H; injection H as <- <-;
  split;
  [ intros ? ? ?Heq; discriminate Heq
  | intros ? ? ?Heq;
    first [ discriminate Heq
          | injection Heq as <- <-; split; [reflexivity|];
            functions_of_history; not_in ] ].

Ltac is_suffix6000 :=
  unfold calls_ps6000, setup_ps6000; cbn [app replicate issued];
  solve [repeat first [reflexivity | apply suffix_cons_r]].

Ltac complete_or_not6000 :=
  split; intros ?Hc;
  first
    [ reflexivity
    | solve [eauto]
    | exfalso;
      match goal with
      | Heq : _ = _ |- _ => apply (f_equal length) in Heq; revert Heq
      end;
      unfold calls_ps6000, setup_ps6000;
      cbn [app replicate issued length];
      rewrite ?length_app, ?length_replicate; cbn [length]; lia
    | exfalso; destruct Hc as [? Hc]; discriminate Hc ].

Ltac fin_order6000 :=
  let H := fresh in
  intros H; injection H as <- <-;
  match goal with
  | polls : nat |- _ =>
      first [ exists polls; split; [is_suffix6000|complete_or_not6000]
            | exists (S polls); split; [is_suffix6000|complete_or_not6000] ]
  end.

Ltac fin_status6000 :=
  let H := fresh in
  intros H; injection H as <- <-; cbn [status issued];
  unfold setup_ps6000; cbn [drop];
  repeat split;
  first [ match goal with Heq : _ = Returned _ |- _ => discriminate Heq end
        | lookup_status ].

Ltac fin_outcomes6000 :=
  let H := fresh in
  intros H; injection H as <- <-;
  split;
  [ intros ? ?Heq;
    first [ discriminate Heq
          | injection Heq as <-;
            cbn [adc2mVChAMax adc2mVChBMax timeAxis issued drop];
            rewrite !length_fmap, !length_store_samples, length_seqZ;
            split; [apply Z2Nat.inj; [assumption|discriminate|assumption]|];
            split; [reflexivity|]; split; [reflexivity|]; assumption ]
  | intros ? ?Heq;
    first [ discriminate Heq
          | injection Heq as <-; cbn [issued drop];
            split; [reflexivity|]; split; [|reflexivity];
            let E := fresh in
            let Hx := fresh in
            intros E;
            first
              [ match goal with
                | Hc : ?x < 0 |- _ =>
                    assert (Hx : x = 5000) by exact E;
                    rewrite Hx in Hc; discriminate Hc
                end
              | match goal with
                | Hp : Z.to_nat ?x <> _ |- _ =>
                    apply Hp; assert (Hx : x = 5000) by exact E;
                    rewrite Hx; reflexivity
                end ] ] ].

Section EveryRunPS6000.

Import PS6000BlockExample.

(** Against a unit that reports ready at some poll and returns its 5000
    samples, the run returns, whatever the statuses. *)
Lemma ps6000_returns dev :
  (exists n, ready_after dev setup_ps6000 n <> 0) ->
  (forall h, Num.c_int32 (noOfSamples dev h) = 5000) ->
  exists fuel n out w,
    run dev fuel = (Returned out, w) /\ issued w = calls_ps6000 n.
Proof.
  intros [n Hr] Hnum.
  exists (S n). unfold run, start. cbv zeta.
  do 6 (rewrite driver_unfold; cbv zeta; cbn [issued status]).
  rewrite bind_unfold.
  match goal with |- context [poll dev (S n) 0 0 ?w0] =>
    destruct (poll_ready_returns dev n w0 Hr) as (r & w1 & Hp & _);
    destruct (poll_issued dev (S n) 0 w0) as (k & Hk & _);
    rewrite Hp in Hk |- * end.
  cbn [snd issued] in Hk. destruct w1 as [h1 st1]. cbn [issued] in Hk. subst h1.
  do 3 (rewrite driver_unfold; cbv zeta; cbn [issued status]).
  change (Num.c_int16 32512) with 32512.
  rewrite bind_unfold, adc2mV_at_7. change (32512 =? 0) with false.
  cbn [lift mret M_ret]. rewrite bind_unfold, adc2mV_at_7.
  change (32512 =? 0) with false.
  cbn [lift mret M_ret]. rewrite bind_unfold.
  unfold makeTime, linspace. rewrite Hnum. change (5000 <? 0) with false.
  cbn [lift mret M_ret].
  do 2 (rewrite bind_unfold, plot_fmap, length_seqZ, length_store_samples,
          Nat.eqb_refl; cbn [lift mret M_ret]).
  rewrite bind_unfold. cbn [invoke issued status mret M_ret].
  eexists k, _, _. split; reflexivity.
Qed.

(** C10. In the ps6000 script the maximum count is the constant 32512
    and the range is the 2 V one: in every run that returns, the voltages
    of both channels are the counts of the buffers the driver filled,
    each times 2000 over 32512, and the unit was never asked for its
    maximum count. *)
Theorem ps6000_fixed_scaling (dev : device) (fuel : nat) (out : capture)
  (w : world) :
  run dev fuel = (Returned out, w) ->
  let h := tail (issued w) in
  adc2mVChAMax out
  = (fun x => PrimFloat.div (Num.float_of_Z (x * 2000)) (Num.float_of_Z 32512))
      <$> store_samples (Z.to_nat 5000) (samples dev h 0)
  /\ adc2mVChBMax out
     = (fun x => PrimFloat.div (Num.float_of_Z (x * 2000)) (Num.float_of_Z 32512))
         <$> store_samples (Z.to_nat 5000) (samples dev h 1)
  /\ (MaximumValue ∉ fn <$> issued w).
Proof. cbv zeta. walk6000 dev fuel fin_scaling. Qed.

Lemma ps6000_fixed_scaling_witness :
  exists (fuel : nat) (out : capture) (w : world),
    run (Bench.returning 5000 Bench.demo) fuel = (Returned out, w)
    /\ adc2mVChAMax out
       = (fun x => PrimFloat.div (Num.float_of_Z (x * 2000)) (Num.float_of_Z 32512))
           <$> store_samples (Z.to_nat 5000) [0; 16256; 32512]
    /\ (MaximumValue ∉ fn <$> issued w).
Proof.
  destruct (ps6000_returns (Bench.returning 5000 Bench.demo))
    as (fuel & n & out & w & E & _).
  - exists 1%nat. vm_compute. discriminate.
  - intros h. reflexivity.
  - exists fuel, out, w. split; [exact E|].
    destruct (ps6000_fixed_scaling (Bench.returning 5000 Bench.demo) fuel out w E)
      as (Ha & _ & Hm).
    split; [exact Ha | exact Hm].
Defined.

(** The ps6000 script asserts no status: no run of it ends with a device
    error, whatever the driver returns; a run that returns has closed the
    unit last and has never stopped it. *)
Theorem ps6000_asserts_nothing (dev : device) (fuel : nat) :
  (forall code w,
      run dev fuel <> (Raised (DeviceError code), w))
  /\ (forall out w,
         run dev fuel = (Returned out, w) ->
         head (issued w) = Some (Call CloseUnit [])
         /\ (Stop ∉ fn <$> issued w)).
Proof.
  destruct (run dev fuel) as [o w0] eqn:E. revert E.
  walk6000 dev fuel fin_asserts.
Qed.

Lemma ps6000_asserts_nothing_witness :
  fst (run (Bench.refusing Bench.is_setChA 13 (Bench.asleep Bench.demo)) 3)
  = StillPolling
  /\ forall code w,
      run (Bench.refusing Bench.is_setChA 13 (Bench.asleep Bench.demo)) 3
      <> (Raised (DeviceError code), w).
Proof.
  split; [vm_compute; reflexivity|].
  exact (proj1 (ps6000_asserts_nothing
                  (Bench.refusing Bench.is_setChA 13 (Bench.asleep Bench.demo)) 3)).
Defined.

(** The calls of the ps6000 script and their arguments. The history of
    every run, whatever the driver returns and whatever the end of the
    run, is an initial part of one list of calls (here its newest-first
    suffix): open, channel A, channel B, trigger, timebase 8 for 5000
    samples, block start with 2500 samples on each side of the trigger,
    some ready polls, the two buffers of 5000 samples, values, close; and
    it is the whole list exactly when the run returns. *)
Theorem ps6000_history_is_a_prefix_of_the_script (dev : device) (fuel : nat)
  (o : outcome capture) (w : world) :
  run dev fuel = (o, w) ->
  exists n,
    issued w `suffix_of` calls_ps6000 n
    /\ (issued w = calls_ps6000 n <-> exists out, o = Returned out).
Proof. walk6000 dev fuel fin_order6000. Qed.

Lemma ps6000_history_is_a_prefix_of_the_script_witness :
  exists n,
    issued (snd (run (Bench.asleep Bench.demo) 7)) `suffix_of` calls_ps6000 n.
Proof.
  destruct (run (Bench.asleep Bench.demo) 7) as [o w] eqn:E.
  destruct (ps6000_history_is_a_prefix_of_the_script (Bench.asleep Bench.demo) 7 o w E)
    as (n & Hs & _).
  exists n. exact Hs.
Defined.

(** The dictionary that the ps6000 script prints. In every run each of
    the six keys of the setup holds the status that the driver returned
    to that call, zero or not, and the keys close, stop and maximumValue
    are never written (the status of the close call is dropped); in a run
    that returns, the keys of the buffers and of the values hold the
    statuses of their calls, and the key isReady that of the last ready
    poll. *)
Theorem ps6000_status_records_every_call (dev : device) (fuel : nat)
  (o : outcome capture) (w : world) :
  run dev fuel = (o, w) ->
  status w !! "openunit" = Some (pico_status dev (drop 5 setup_ps6000))
  /\ status w !! "setChA" = Some (pico_status dev (drop 4 setup_ps6000))
  /\ status w !! "setChB" = Some (pico_status dev (drop 3 setup_ps6000))
  /\ status w !! "trigger" = Some (pico_status dev (drop 2 setup_ps6000))
  /\ status w !! "getTimebase2" = Some (pico_status dev (drop 1 setup_ps6000))
  /\ status w !! "runBlock" = Some (pico_status dev setup_ps6000)
  /\ status w !! "close" = None
  /\ status w !! "stop" = None
  /\ status w !! "maximumValue" = None
  /\ (forall out, o = Returned out ->
      status w !! "getValues" = Some (pico_status dev (drop 1 (issued w)))
      /\ status w !! "setDataBuffersB" = Some (pico_status dev (drop 2 (issued w)))
      /\ status w !! "setDataBuffersA" = Some (pico_status dev (drop 3 (issued w)))
      /\ status w !! "isReady" = Some (pico_status dev (drop 4 (issued w)))).
Proof. walk6000 dev fuel fin_status6000. Qed.

Lemma ps6000_status_records_every_call_witness :
  status (snd (run (Bench.refusing Bench.is_setChA 13 Bench.demo) 5)) !! "setChA"
  = Some 13.
Proof.
  destruct (run (Bench.refusing Bench.is_setChA 13 Bench.demo) 5) as [o w] eqn:E.
  destruct (ps6000_status_records_every_call _ 5 o w E) as (_ & Ha & _).
  cbn [snd]. rewrite Ha. reflexivity.
Defined.

(** The ends of a run of the ps6000 script. In a run that returns, the
    unit returned 5000 samples, and each channel and the time axis hold
    5000 values. The only exception of a run is a value error, raised
    after the values call and before the unit is closed, when the count
    of samples that the unit reports as returned is not 5000: at the time
    axis when it is negative, at the plot otherwise. *)
Theorem ps6000_outcomes (dev : device) (fuel : nat) (o : outcome capture)
  (w : world) :
  run dev fuel = (o, w) ->
  (forall out, o = Returned out ->
     Num.c_int32 (noOfSamples dev (drop 1 (issued w))) = 5000
     /\ length (adc2mVChAMax out) = Z.to_nat 5000
     /\ length (adc2mVChBMax out) = Z.to_nat 5000
     /\ length (timeAxis out) = Z.to_nat 5000)
  /\ (forall e, o = Raised e ->
        e = ValueError
        /\ Num.c_int32 (noOfSamples dev (issued w)) <> 5000
        /\ head (issued w) = Some (Call GetValues [0; 5000; 1; 0; 0])).
Proof. walk6000 dev fuel fin_outcomes6000. Qed.

Lemma ps6000_outcomes_witness :
  fst (run Bench.demo 5) = Raised ValueError
  /\ Num.c_int32 (noOfSamples Bench.demo (issued (snd (run Bench.demo 5)))) <> 5000.
Proof.
  destruct (run Bench.demo 5) as [o w] eqn:E.
  destruct (ps6000_outcomes Bench.demo 5 o w E) as [_ Hr].
  assert (Ho : o = Raised ValueError) by (vm_compute in E; congruence).
  destruct (Hr ValueError Ho) as (_ & Hn & _).
  cbn [fst snd]. split; [exact Ho|exact Hn].
Defined.

End EveryRunPS6000.
